(** * parmelan-trip: GPX track conversion and two-day route stitching

    A shallow embedding of [gpx_converter.py] and [combine_routes.py].

    Conventions of the model:
    - Python numbers (the [int]s and [float]s that [json.load] and gpxpy
      produce) are real numbers: arithmetic is exact, there is neither
      rounding nor overflow.  [math.sqrt] and [math.asin] keep their domain
      errors.  Results on distances are therefore results on the formulas
      that the code evaluates, read up to the rounding of each
      floating-point operation, and for latitudes within -90..90 (see
      [calculate_distance]).
    - JSON documents are values of [json]; Python's [None] is [JNull],
      a [dict] is a [gmap] keyed by strings, a [list] is a [list].
    - An uncaught Python exception is the [Raise] branch of [res]. *)

From Stdlib Require Import Reals Lra Psatz.
From stdpp Require Import gmap strings list fin_maps pretty.

Set Warnings "-register-all".

(** ** Python values obtained from JSON *)

Inductive json : Type :=
  | JNull
  | JBool (b : bool)
  | JNum (r : R)
  | JStr (s : string)
  | JArr (l : list json)
  | JObj (m : gmap string json).

Inductive exn : Type :=
  | KeyError
  | TypeError
  | AttributeError
  | ValueError
  | ZeroDivisionError.

(** The result of an expression that may raise. *)
Inductive res (A : Type) : Type :=
  | Ok (a : A)
  | Raise (e : exn).
Arguments Ok {A} a.
Arguments Raise {A} e.

#[global] Instance res_ret : MRet res := fun A a => Ok a.
#[global] Instance res_bind : MBind res := fun A B f m =>
  match m with
  | Ok a => f a
  | Raise e => Raise e
  end.

(** [bool(v)]: the truth value Python gives to [v] in [if not v]. *)
Definition truthy (v : json) : bool :=
  match v with
  | JNull => false
  | JBool b => b
  | JNum r => if Req_EM_T r 0 then false else true
  | JStr s => negb (String.eqb s EmptyString)
  | JArr l => negb (bool_decide (l = []))
  | JObj m => negb (bool_decide (m = ∅))
  end.

(** The numeric value of a Python number; [bool] is a subclass of [int]. *)
Definition as_number (v : json) : option R :=
  match v with
  | JNum r => Some r
  | JBool true => Some 1%R
  | JBool false => Some 0%R
  | _ => None
  end.

(** [a + b] *)
Definition py_add (a b : json) : res json :=
  match as_number a, as_number b with
  | Some x, Some y => Ok (JNum (x + y))
  | _, _ =>
      match a, b with
      | JStr s, JStr t => Ok (JStr (s +:+ t))
      | JArr l, JArr k => Ok (JArr (l ++ k))
      | _, _ => Raise TypeError
      end
  end.

(** [d[key]] for a string [key] *)
Definition subscript (d : json) (key : string) : res json :=
  match d with
  | JObj m =>
      match m !! key with
      | Some v => Ok v
      | None => Raise KeyError
      end
  | _ => Raise TypeError
  end.

(** [d.get(key, dflt)] on a dict *)
Definition dict_get (m : gmap string json) (key : string) (dflt : json) : json :=
  default dflt (m !! key).

(** The dict on which [.get] is called: [d.get] exists on dicts only. *)
Definition as_dict (d : json) : res (gmap string json) :=
  match d with
  | JObj m => Ok m
  | _ => Raise AttributeError
  end.

(** [for point in v]: the items the loop visits, or the error of [iter(v)].
    A string yields its characters, a dict its keys. *)
Definition py_iter (v : json) : res (list json) :=
  match v with
  | JArr l => Ok l
  | JStr s => Ok ((λ c, JStr (String c EmptyString)) <$> String.list_ascii_of_string s)
  | JObj m => Ok ((λ kv, JStr kv.1) <$> map_to_list m)
  | _ => Raise TypeError
  end.

(** [combined_point = point.copy()] followed by the first item assignment
    [combined_point['day'] = day]: a list has [copy] but takes no string
    index, the other non-dict values have no [copy]. *)
Definition copy_and_tag (point : json) (day : R) : res (gmap string json) :=
  match point with
  | JObj m => Ok (<["day" := JNum day]> m)
  | JArr _ => Raise TypeError
  | _ => Raise AttributeError
  end.

(** [f"{v:.2f}"] is defined for numbers only. *)
Definition format_arg (v : json) : res R :=
  match as_number v with
  | Some x => Ok x
  | None =>
      match v with
      | JStr _ => Raise ValueError
      | _ => Raise TypeError
      end
  end.

(** ** combine_routes.py *)

(** A file is either a JSON document or text that [json.load] rejects. *)
Inductive file : Type :=
  | Unparsable
  | Parsed (j : json).

(** What a run leaves behind: the lines printed, the file system, and the
    exception that ended it, if any. *)
Record outcome : Type := {
  stdout : list string;
  files : gmap string file;
  raised : option exn
}.

(** [load_route_data]: the loaded value ([JNull] for [None]) and the lines
    printed. *)
Definition load_route_data (fs : gmap string file) (filename : string)
  : json * list string :=
  match fs !! filename with
  | Some (Parsed j) => (j, [])
  | None => (JNull, ["File " +:+ filename +:+ " not found!"])
  | Some Unparsable => (JNull, ["Error parsing " +:+ filename +:+ "!"])
  end.

(** The day-1 loop (lines 52-58): the combined points in order and the final
    [cumulative_distance]. *)
Fixpoint day1_loop (points : list json) (cumulative_distance : json)
  : res (list json * json) :=
  match points with
  | [] => Ok ([], cumulative_distance)
  | point :: rest =>
      combined_point ← copy_and_tag point 1;
      m ← as_dict point;
      let combined_point :=
        <["original_distance" := dict_get m "distance" (JNum 0)]> combined_point in
      let combined_point := <["distance" := cumulative_distance]> combined_point in
      '(tl, c) ← day1_loop rest (dict_get m "distance" (JNum 0));
      Ok (JObj combined_point :: tl, c)
  end.

(** The day-2 loop (lines 61-66). *)
Fixpoint day2_loop (points : list json) (cumulative_distance : json)
  : res (list json) :=
  match points with
  | [] => Ok []
  | point :: rest =>
      combined_point ← copy_and_tag point 2;
      m ← as_dict point;
      let combined_point :=
        <["original_distance" := dict_get m "distance" (JNum 0)]> combined_point in
      d ← py_add cumulative_distance (dict_get m "distance" (JNum 0));
      let combined_point := <["distance" := d]> combined_point in
      tl ← day2_loop rest cumulative_distance;
      Ok (JObj combined_point :: tl)
  end.

(** The local variables of [combine_routes] once both loops have run
    (line 67). *)
Record stitch_locals : Type := {
  day1_distance : json;
  day2_distance : json;
  total_distance : json;
  day1_count : nat;   (* len(day1_points) *)
  day2_count : nat;   (* len(day2_points) *)
  combined_points : list json
}.

(** Lines 42-66: the distance totals and the two loops. *)
Definition stitch (m1 m2 : gmap string json) (day1_points day2_points : json)
  : res stitch_locals :=
  let day1_distance := dict_get m1 "total_distance" (JNum 0) in
  let day2_distance := dict_get m2 "total_distance" (JNum 0) in
  total_distance ← py_add day1_distance day2_distance;
  items1 ← py_iter day1_points;
  '(combined1, cumulative_distance) ← day1_loop items1 (JNum 0);
  items2 ← py_iter day2_points;
  combined2 ← day2_loop items2 cumulative_distance;
  Ok {| day1_distance := day1_distance;
        day2_distance := day2_distance;
        total_distance := total_distance;
        day1_count := length items1;
        day2_count := length items2;
        combined_points := combined1 ++ combined2 |}.

(** Lines 69-80: the dict that is written out. *)
Definition combined_data (m1 m2 : gmap string json) (l : stitch_locals) : json :=
  JObj (<["total_distance" := total_distance l]>
       (<["day1_distance" := day1_distance l]>
       (<["day2_distance" := day2_distance l]>
       (<["start_time" := dict_get m1 "start_time" JNull]>
       (<["end_time" := dict_get m2 "end_time" JNull]>
       (<["day1_start_index" := JNum 0]>
       (<["day1_end_index" := JNum (INR (day1_count l) - 1)]>
       (<["day2_start_index" := JNum (INR (day1_count l))]>
       (<["day2_end_index" := JNum (INR (length (combined_points l)) - 1)]>
       (<["points" := JArr (combined_points l)]> ∅)))))))))).

Definition output_file : string := "data/route-combined.json".

Section Formatting.

(** [format(x, '.2f')]: the text of a number with two decimals. *)
Variable format_2f : R → string.

(** Lines 87-93: the lines printed after the file is written, and the
    exception of a [:.2f] applied to something that is not a number. *)
Definition report (l : stitch_locals) : list string * option exn :=
  let saved := "Combined route saved to " +:+ output_file in
  match format_arg (total_distance l) with
  | Raise e => ([saved], Some e)
  | Ok total =>
  match format_arg (day1_distance l) with
  | Raise e => ([saved; "Total distance: " +:+ format_2f total +:+ " km"], Some e)
  | Ok d1 =>
  match format_arg (day2_distance l) with
  | Raise e =>
      ([saved; "Total distance: " +:+ format_2f total +:+ " km";
        "Day 1: " +:+ format_2f d1 +:+ " km (" +:+ pretty (day1_count l) +:+ " points)"],
       Some e)
  | Ok d2 =>
      ([saved; "Total distance: " +:+ format_2f total +:+ " km";
        "Day 1: " +:+ format_2f d1 +:+ " km (" +:+ pretty (day1_count l) +:+ " points)";
        "Day 2: " +:+ format_2f d2 +:+ " km (" +:+ pretty (day2_count l) +:+ " points)";
        "Combined: " +:+ pretty (length (combined_points l)) +:+ " points";
        "Day 1 points: 0 to " +:+ pretty (Z.of_nat (day1_count l) - 1)%Z;
        "Day 2 points: " +:+ pretty (day1_count l) +:+ " to "
          +:+ pretty (Z.of_nat (length (combined_points l)) - 1)%Z],
       None)
  end end end.

(** [combine_routes()], run on the file system [fs]. *)
Definition combine_routes (fs : gmap string file) : outcome :=
  let '(day1_data, out1) := load_route_data fs "data/route-day1.json" in
  let '(day2_data, out2) := load_route_data fs "data/route-day2.json" in
  let out := out1 ++ out2 in
  if negb (truthy day1_data) || negb (truthy day2_data) then
    {| stdout := out ++ ["Could not load route data!"]; files := fs; raised := None |}
  else
    match (p1 ← subscript day1_data "points";
           p2 ← subscript day2_data "points"; Ok (p1, p2)) with
    | Raise e => {| stdout := out; files := fs; raised := Some e |}
    | Ok (day1_points, day2_points) =>
        if negb (truthy day1_points) || negb (truthy day2_points) then
          {| stdout := out ++ ["No points found in route data!"];
             files := fs; raised := None |}
        else
          match (m1 ← as_dict day1_data; m2 ← as_dict day2_data;
                 l ← stitch m1 m2 day1_points day2_points;
                 Ok (l, combined_data m1 m2 l)) with
          | Raise e => {| stdout := out; files := fs; raised := Some e |}
          | Ok (l, data) =>
              let '(lines, e) := report l in
              {| stdout := out ++ lines;
                 files := <[output_file := Parsed data]> fs;
                 raised := e |}
          end
    end.

End Formatting.

(** ** gpx_converter.py *)

Open Scope R_scope.

(** The part of a [datetime] that [strftime('%H:%M')] reads. *)
Record datetime : Type := {
  hour : nat;
  minute : nat
}.

(** A track point as gpxpy hands it over. *)
Record GPXTrackPoint : Type := {
  latitude : R;
  longitude : R;
  elevation : option R;
  time : option datetime
}.

(** [%H] and [%M]: two digits, zero-padded. *)
Definition two_digits (n : nat) : string :=
  if (n <? 10)%nat then "0" +:+ pretty n else pretty n.

(** [parse_time]: [HH:MM], or [None] when the point has no time. *)
Definition parse_time (gpx_time : option datetime) : json :=
  match gpx_time with
  | Some t => JStr (two_digits (hour t) +:+ ":" +:+ two_digits (minute t))
  | None => JNull
  end.

(** [math.radians] *)
Definition radians (x : R) : R := x * (PI / 180).

(** [math.sqrt]: a negative argument is a domain error. *)
Definition math_sqrt (x : R) : res R :=
  if Rlt_dec x 0 then Raise ValueError else Ok (sqrt x).

(** [math.asin]: an argument outside [-1, 1] is a domain error. *)
Definition math_asin (x : R) : res R :=
  if Rle_dec (-1) x then
    if Rle_dec x 1 then Ok (asin x) else Raise ValueError
  else Raise ValueError.

(** [calculate_distance]: the haversine formula, in kilometres.

    Over the reals the quantity [a] lies between 0 and 1, so that neither
    domain error occurs.  In IEEE double arithmetic rounding can leave [a]
    marginally below 0 when the two latitudes lie on either side of 90 or of
    -90 degrees, as for (91, 0) and (89, 180), and [math.sqrt] then raises
    [ValueError].  Such latitudes are outside the -90..90 of a track point;
    nothing is stated below about the function on all finite inputs. *)
Definition calculate_distance (lat1 lon1 lat2 lon2 : R) : res R :=
  let R_earth := 6371 in
  let lat1 := radians lat1 in
  let lon1 := radians lon1 in
  let lat2 := radians lat2 in
  let lon2 := radians lon2 in
  let dlat := lat2 - lat1 in
  let dlon := lon2 - lon1 in
  let a := sin (dlat / 2) ^ 2 + cos lat1 * cos lat2 * sin (dlon / 2) ^ 2 in
  s ← math_sqrt a;
  h ← math_asin s;
  let c := 2 * h in
  Ok (R_earth * c).

(** The entry appended to [all_points] (lines 84-90). *)
Definition route_point (lat lon elevation : R) (time : json) (distance : R) : json :=
  JObj (<["lat" := JNum lat]>
       (<["lon" := JNum lon]>
       (<["elevation" := JNum elevation]>
       (<["time" := time]>
       (<["distance" := JNum distance]> ∅))))).

(** The entry of an elevation list (lines 94-98 and 108-112). *)
Definition elevation_point (distance elevation time : json) : json :=
  JObj (<["distance" := distance]>
       (<["elevation" := elevation]>
       (<["time" := time]> ∅))).

(** The loop over [segment.points] (lines 70-100), started with the running
    [total_distance] and the previous coordinates, if any.  It yields
    [all_points], [elevation_points] and the final [total_distance]. *)
Fixpoint track_loop (points : list GPXTrackPoint) (total_distance : R)
    (prev : option (R * R)) : res (list json * list json * R) :=
  match points with
  | [] => Ok ([], [], total_distance)
  | point :: rest =>
      let lat := latitude point in
      let lon := longitude point in
      let elev := default 0 (elevation point) in
      let time := parse_time (time point) in
      total_distance ←
        match prev with
        | Some (prev_lat, prev_lon) =>
            segment_distance ← calculate_distance prev_lat prev_lon lat lon;
            Ok (total_distance + segment_distance)
        | None => Ok total_distance
        end;
      let entry := route_point lat lon elev time total_distance in
      let with_elevation :=
        match elevation point with
        | Some e => [elevation_point (JNum total_distance) (JNum e) time]
        | None => []
        end in
      '(all_points, elevation_points, total) ←
        track_loop rest total_distance (Some (lat, lon));
      Ok (entry :: all_points, with_elevation ++ elevation_points, total)
  end.

(** [v > 0] *)
Definition py_gt_zero (v : json) : res bool :=
  match as_number v with
  | Some x => Ok (if Rlt_dec 0 x then true else false)
  | None => Raise TypeError
  end.

(** [v is not None] *)
Definition is_not_None (v : json) : bool :=
  match v with
  | JNull => false
  | _ => true
  end.

(** The loop that builds [elevation_profile] from [all_points]
    (lines 106-112). *)
Fixpoint elevation_profile_loop (all_points : list json) : res (list json) :=
  match all_points with
  | [] => Ok []
  | point :: rest =>
      e ← subscript point "elevation";
      keep ← (if is_not_None e then py_gt_zero e else Ok false);
      kept ←
        (if keep : bool then
           d ← subscript point "distance";
           e ← subscript point "elevation";
           t ← subscript point "time";
           Ok [elevation_point d e t]
         else Ok []);
      tl ← elevation_profile_loop rest;
      Ok (kept ++ tl)
  end.

(** [all_points[0]['time'] if all_points else None], and the same for the
    last element. *)
Definition time_of (point : option json) : res json :=
  match point with
  | Some p => subscript p "time"
  | None => Ok JNull
  end.

(** [convert_gpx_to_json] from line 64 on, given [segment.points] as
    [gpx.reduce_points] left it: the route dataset and the elevation dataset
    that are written out. *)
Definition convert_gpx_to_json (segment_points : list GPXTrackPoint)
  : res (json * json) :=
  '(all_points, elevation_points, total_distance) ←
    track_loop segment_points 0 None;
  elevation_profile ← elevation_profile_loop all_points;
  start_time ← time_of (head all_points);
  end_time ← time_of (last all_points);
  let route_data :=
    JObj (<["total_distance" := JNum total_distance]>
         (<["start_time" := start_time]>
         (<["end_time" := end_time]>
         (<["points" := JArr all_points]> ∅)))) in
  let elevation_data :=
    JObj (<["total_distance" := JNum total_distance]>
         (<["points" := JArr elevation_profile]> ∅)) in
  Ok (route_data, elevation_data).

(** [a / b] on floats *)
Definition py_div (a b : R) : res R :=
  if Req_EM_T b 0 then Raise ZeroDivisionError else Ok (a / b).

(** A point of the path projector: a dict with numeric ['lat'] and ['lon']. *)
Record coordinate : Type := {
  lat : R;
  lon : R
}.

(** [min(l)] and [max(l)]; an empty argument is a [ValueError]. *)
Definition py_min (l : list R) : res R :=
  match l with
  | [] => Raise ValueError
  | x :: l' => Ok (foldl Rmin x l')
  end.

Definition py_max (l : list R) : res R :=
  match l with
  | [] => Raise ValueError
  | x :: l' => Ok (foldl Rmax x l')
  end.

Section PathFormatting.

Variable format_2f : R → string.

(** The body of the loop of [create_svg_path_from_coordinates]: the scaled
    coordinates of one point (lines 167-168). *)
Definition project (min_lat max_lat min_lon max_lon : R) (point : coordinate)
  : res (R * R) :=
  let width := 1000 in
  let height := 500 in
  qx ← py_div (lon point - min_lon) (max_lon - min_lon);
  let x := qx * width in
  qy ← py_div (max_lat - lat point) (max_lat - min_lat);
  let y := qy * height in
  Ok (x, y).

(** The path command of the point at index [i] (lines 170-173). *)
Definition path_part (i : nat) (xy : R * R) : string :=
  (if Nat.eqb i 0 then "M " else "L ")
    +:+ format_2f xy.1 +:+ " " +:+ format_2f xy.2.

(** The loop over [enumerate(points)], from index [i] on. *)
Fixpoint path_loop (min_lat max_lat min_lon max_lon : R) (i : nat)
    (points : list coordinate) : res (list string) :=
  match points with
  | [] => Ok []
  | point :: rest =>
      xy ← project min_lat max_lat min_lon max_lon point;
      tl ← path_loop min_lat max_lat min_lon max_lon (S i) rest;
      Ok (path_part i xy :: tl)
  end.

Definition create_svg_path_from_coordinates (points : list coordinate)
  : res string :=
  match points with
  | [] => Ok EmptyString
  | _ :: _ =>
      let lats := lat <$> points in
      let lons := lon <$> points in
      min_lat ← py_min lats;
      max_lat ← py_max lats;
      min_lon ← py_min lons;
      max_lon ← py_max lons;
      path_parts ← path_loop min_lat max_lat min_lon max_lon 0 points;
      Ok (String.concat " " path_parts)
  end.

End PathFormatting.

(** ** Reference functions used to state the results *)

(** The quantity [a] of [calculate_distance], on angles in degrees. *)
Definition haversine (lat1 lon1 lat2 lon2 : R) : R :=
  sin ((radians lat2 - radians lat1) / 2) ^ 2
  + cos (radians lat1) * cos (radians lat2)
    * sin ((radians lon2 - radians lon1) / 2) ^ 2.

(** The great-circle distance in kilometres on a sphere of radius 6371. *)
Definition great_circle (lat1 lon1 lat2 lon2 : R) : R :=
  6371 * (2 * asin (sqrt (haversine lat1 lon1 lat2 lon2))).


(** The distances stamped by the accumulator loop, started with the running
    total and the previous coordinates. *)
Fixpoint running_distances (points : list GPXTrackPoint) (total : R)
    (prev : option (R * R)) : list R :=
  match points with
  | [] => []
  | point :: rest =>
      let total' :=
        match prev with
        | Some (prev_lat, prev_lon) =>
            total + great_circle prev_lat prev_lon (latitude point) (longitude point)
        | None => total
        end in
      total' :: running_distances rest total' (Some (latitude point, longitude point))
  end.

(** The route entry of a track point stamped with distance [d]. *)
Definition stamped (point : GPXTrackPoint) (d : R) : json :=
  route_point (latitude point) (longitude point) (default 0 (elevation point))
    (parse_time (time point)) d.

(** A track point whose elevation is present and strictly positive. *)
Definition positive_elevation (point : GPXTrackPoint) : bool :=
  match elevation point with
  | Some e => if Rlt_dec 0 e then true else false
  | None => false
  end.

(** The value stored under [key] in a dict, [JNull] when there is none. *)
Definition field (p : json) (key : string) : json :=
  match p with
  | JObj m => dict_get m key JNull
  | _ => JNull
  end.

(** The profile entry that repeats the fields of a route entry. *)
Definition profile_of (p : json) : json :=
  elevation_point (field p "distance") (field p "elevation") (field p "time").


(** The pre-stitch distance of a route point: [point.get('distance', 0)]. *)
Definition original_distance (p : json) : json :=
  match p with
  | JObj m => dict_get m "distance" (JNum 0)
  | _ => JNum 0
  end.

(** A JSON number stored under [key], or no entry at all. *)
Definition numeric_or_absent (m : gmap string json) (key : string) : bool :=
  match m !! key with
  | Some (JNum _) | None => true
  | Some _ => false
  end.

(** A route point as the converter writes it: a dict whose [distance] is a
    number. *)
Definition route_point_ok (p : json) : bool :=
  match p with
  | JObj m => numeric_or_absent m "distance"
  | _ => false
  end.

(** A day dataset as the converter writes it, with its dict [m] and its
    points [ps]: the total and the point distances are numbers. *)
Definition day_dataset (m : gmap string json) (ps : list json) : Prop :=
  m !! "points" = Some (JArr ps)
  ∧ numeric_or_absent m "total_distance" = true
  ∧ Forall (λ p, route_point_ok p = true) ps.

(** The file [name] holds nothing that [combine_routes] accepts as loaded
    data: it is missing, unparsable, or holds an empty or null document. *)
Definition unavailable (fs : gmap string file) (name : string) : bool :=
  match fs !! name with
  | Some (Parsed j) => negb (truthy j)
  | _ => true
  end.

(** The file [name] holds a dict whose [points] entry is the empty list. *)
Definition has_no_points (fs : gmap string file) (name : string) : Prop :=
  ∃ m, fs !! name = Some (Parsed (JObj m)) ∧ m !! "points" = Some (JArr []).

(** The number held by a JSON value, 0 when it holds none. *)
Definition number_of (v : json) : R := default 0 (as_number v).

(** A route point copied into the combined route: tagged with its day, its
    own distance kept as [original_distance], and [distance] overwritten. *)
Definition stitched_point (day : R) (p : json) (distance : json) : json :=
  match p with
  | JObj m =>
      JObj (<["distance" := distance]>
           (<["original_distance" := dict_get m "distance" (JNum 0)]>
           (<["day" := JNum day]> m)))
  | _ => JNull
  end.

(** The running offset after the day-1 loop: the pre-stitch distance of the
    last day-1 point. *)
Definition day1_offset (ps1 : list json) : json :=
  default (JNum 0) (last (original_distance <$> ps1)).

(** The points of the combined route for day-1 points [ps1] and day-2 points
    [ps2]. *)
Definition stitched_points (ps1 ps2 : list json) : list json :=
  zip_with (stitched_point 1) ps1 (JNum 0 :: (original_distance <$> ps1))
  ++ ((λ p, stitched_point 2 p
              (JNum (number_of (day1_offset ps1) + number_of (original_distance p))))
        <$> ps2).

(** The local variables of a run on the datasets [m1] and [m2]. *)
Definition stitched_locals (m1 m2 : gmap string json) (ps1 ps2 : list json)
  : stitch_locals :=
  {| day1_distance := dict_get m1 "total_distance" (JNum 0);
     day2_distance := dict_get m2 "total_distance" (JNum 0);
     total_distance :=
       JNum (number_of (dict_get m1 "total_distance" (JNum 0))
             + number_of (dict_get m2 "total_distance" (JNum 0)));
     day1_count := length ps1;
     day2_count := length ps2;
     combined_points := stitched_points ps1 ps2 |}.

(** The two input files hold the day datasets [m1] and [m2], whose point
    sequences [ps1] and [ps2] are not empty. *)
Definition day_files (fs : gmap string file) (m1 m2 : gmap string json)
    (ps1 ps2 : list json) : Prop :=
  fs !! "data/route-day1.json" = Some (Parsed (JObj m1))
  ∧ fs !! "data/route-day2.json" = Some (Parsed (JObj m2))
  ∧ day_dataset m1 ps1 ∧ day_dataset m2 ps2
  ∧ ps1 ≠ [] ∧ ps2 ≠ [].

(** The invariant of a single-day route dataset: the total is the distance
    of the last point, both read with the defaults that the stitcher uses. *)
Definition total_is_last_distance (m : gmap string json) (ps : list json) : Prop :=
  ∀ p, last ps = Some p → dict_get m "total_distance" (JNum 0) = original_distance p.

(** The drawing coordinates of a point for given bounds: the longitude is
    scaled to the width 1000, the latitude, inverted, to the height 500. *)
Definition scaled (min_lat max_lat min_lon max_lon : R) (p : coordinate) : R * R :=
  ((lon p - min_lon) / (max_lon - min_lon) * 1000,
   (max_lat - lat p) / (max_lat - min_lat) * 500).

(** The move-to and line-to commands. *)
Definition move_to (format_2f : R → string) (xy : R * R) : string :=
  "M " +:+ format_2f xy.1 +:+ " " +:+ format_2f xy.2.

Definition line_to (format_2f : R → string) (xy : R * R) : string :=
  "L " +:+ format_2f xy.1 +:+ " " +:+ format_2f xy.2.

(** All points have the same value of the coordinate [f]. *)
Definition constant_on {A} (f : A → R) (points : list A) : Prop :=
  ∀ p q, p ∈ points → q ∈ points → f p = f q.




(** The ten fields of the combined dataset. *)
Definition combined_fields : list string :=
  ["total_distance"; "day1_distance"; "day2_distance"; "start_time"; "end_time";
   "day1_start_index"; "day1_end_index"; "day2_start_index"; "day2_end_index";
   "points"]%string.

(** A combined point: a dict that has the three fields set by the loops. *)
Definition has_stitch_fields (cp : json) : Prop :=
  ∃ m, cp = JObj m
       ∧ is_Some (m !! "day") ∧ is_Some (m !! "original_distance")
       ∧ is_Some (m !! "distance").

(** The input point recovered from a combined point: [distance] is set back
    to [original_distance], and the two added fields are removed. *)
Definition unstitch (cm : gmap string json) : gmap string json :=
  match cm !! "original_distance" with
  | Some od => <["distance" := od]> (delete "original_distance" (delete "day" cm))
  | None => cm
  end.









(** The character of a decimal digit. *)
Definition digit_char (d : nat) : Ascii.ascii := Ascii.ascii_of_nat (48 + d).

(** ** Sample inputs *)

(** Sample data: a route point that holds only a distance, a dataset made
    of such points, and the file system that holds two datasets. *)
Definition sample_point (d : R) : json := JObj (<["distance" := JNum d]> ∅).

Definition sample_dataset (total : R) (ds : list R) : gmap string json :=
  <["total_distance" := JNum total]>
    (<["points" := JArr (sample_point <$> ds)]> ∅).

Definition sample_files (m1 m2 : gmap string json) : gmap string file :=
  <["data/route-day1.json" := Parsed (JObj m1)]>
    (<["data/route-day2.json" := Parsed (JObj m2)]> ∅).

(** A formatter for sample runs; no result below depends on it. *)
Definition sample_format (x : R) : string := "0.00".


(** The two-day scenario of the specification: day 1 with distances 0, 2, 5
    and total 5, day 2 with distances 0, 3 and total 3. *)
Definition scenario_day1 : gmap string json := sample_dataset 5 [0; 2; 5].
Definition scenario_day2 : gmap string json := sample_dataset 3 [0; 3].

(** A dataset without points. *)
Definition empty_day : gmap string json := sample_dataset 0 [].

(** Two points that differ in latitude and in longitude. *)
Definition sample_corners : list coordinate :=
  [ {| lat := 0; lon := 0 |}; {| lat := 1; lon := 1 |} ].

(** A non-empty dataset without a [points] entry. *)
Definition pointless_day : gmap string json := {[ "total_distance" := JNum 1 ]}.

(** One-point datasets whose totals are the strings ["5"] and ["3"]. *)
Definition text_total_day1 : gmap string json :=
  <["total_distance" := JStr "5"]> (<["points" := JArr [sample_point 0]]> ∅).
Definition text_total_day2 : gmap string json :=
  <["total_distance" := JStr "3"]> (<["points" := JArr [sample_point 0]]> ∅).

(** Five past seven in the morning. *)
Definition sample_time : datetime := {| hour := 7; minute := 5 |}.


(** * Results *)

(** ** The distance function *)

Lemma haversine_bounds (p1 p2 dl : R) :
  0 <= sin ((p2 - p1) / 2) ^ 2 + cos p1 * cos p2 * sin (dl / 2) ^ 2 <= 1.
Proof.
  set (u := (p2 - p1) / 2). set (v := (p1 + p2) / 2).
  replace p1 with (v - u) by (unfold u, v; lra).
  replace p2 with (v + u) by (unfold u, v; lra).
  rewrite cos_minus, cos_plus.
  pose proof (sin2_cos2 u) as Hu. pose proof (sin2_cos2 v) as Hv.
  pose proof (SIN_bound (dl / 2)) as Ht.
  unfold Rsqr in Hu, Hv.
  set (S := sin u) in *. set (C := cos u) in *.
  set (s := sin v) in *. set (c := cos v) in *.
  set (t := sin (dl / 2)) in *.
  assert (Ht2 : 0 <= t * t <= 1) by nra.
  set (T := t * t) in *.
  replace (t ^ 2) with T by (unfold T; ring).
  replace (S ^ 2) with (S * S) by ring.
  assert (HS : 0 <= S * S <= 1) by nra.
  assert (Hs : 0 <= s * s <= 1) by nra.
  assert (HC : C * C = 1 - S * S) by lra.
  assert (Hc : c * c = 1 - s * s) by lra.
  replace ((c * C + s * S) * (c * C - s * S) * T)
    with (((1 - s * s) * (1 - S * S) - (s * s) * (S * S)) * T)
    by (rewrite <- HC, <- Hc; ring).
  set (A := S * S) in *. set (B := s * s) in *.
  split; nra.
Qed.

Lemma haversine_range lat1 lon1 lat2 lon2 :
  0 <= haversine lat1 lon1 lat2 lon2 <= 1.
Proof. apply haversine_bounds. Qed.


Lemma sqrt_unit (a : R) : 0 <= a <= 1 → 0 <= sqrt a <= 1.
Proof.
  intros [H0 H1]. split; [apply sqrt_pos|].
  rewrite <- sqrt_1. apply sqrt_le_1_alt, H1.
Qed.

(** Neither [math.sqrt] nor [math.asin] leaves its domain: the call returns
    the great-circle distance. *)
Lemma calculate_distance_returns lat1 lon1 lat2 lon2 :
  calculate_distance lat1 lon1 lat2 lon2 = Ok (great_circle lat1 lon1 lat2 lon2).
Proof.
  unfold calculate_distance, great_circle.
  pose proof (haversine_range lat1 lon1 lat2 lon2) as Ha.
  unfold haversine in *.
  set (a := _ + _ * _ : R) in *.
  pose proof (sqrt_unit a Ha) as Hs.
  unfold math_sqrt. destruct (Rlt_dec a 0) as [Hlt|_]; [lra|]. simpl.
  unfold math_asin.
  destruct (Rle_dec (-1) (sqrt a)) as [_|Hn]; [|lra].
  destruct (Rle_dec (sqrt a) 1) as [_|Hn]; [|lra].
  reflexivity.
Qed.



(** ** The track accumulator *)

Lemma default_last_cons {A} (x y : A) (l : list A) :
  default y (last (x :: l)) = default x (last l).
Proof. rewrite last_cons. by destruct (last l). Qed.

Lemma running_distances_length points total prev :
  length (running_distances points total prev) = length points.
Proof.
  revert total prev. induction points as [|p ps IH]; intros; simpl; [done|].
  by rewrite IH.
Qed.

(** The loop never raises; it stamps the points with the running distances
    and ends with the last of them as its total. *)
Lemma track_loop_returns points total prev :
  ∃ elevation_points,
    track_loop points total prev =
      Ok (zip_with stamped points (running_distances points total prev),
          elevation_points,
          default total (last (running_distances points total prev))).
Proof.
  revert total prev. induction points as [|p ps IH]; intros total prev.
  - by exists [].
  - cbn [track_loop running_distances].
    set (total' := match prev with
                   | Some (prev_lat, prev_lon) =>
                       total + great_circle prev_lat prev_lon (latitude p) (longitude p)
                   | None => total
                   end).
    assert (Hstep : match prev with
                    | Some (prev_lat, prev_lon) =>
                        segment_distance ←
                          calculate_distance prev_lat prev_lon (latitude p) (longitude p);
                        Ok (total + segment_distance)
                    | None => Ok total
                    end = Ok total').
    { unfold total'. destruct prev as [[plat plon]|]; [|done].
      by rewrite calculate_distance_returns. }
    rewrite Hstep. cbn [mbind res_bind].
    destruct (IH total' (Some (latitude p, longitude p))) as [eps ->].
    cbn [mbind res_bind]. eexists. rewrite default_last_cons. reflexivity.
Qed.


Lemma stamped_fields point d :
  subscript (stamped point d) "elevation" = Ok (JNum (default 0 (elevation point)))
  ∧ subscript (stamped point d) "distance" = Ok (JNum d)
  ∧ subscript (stamped point d) "time" = Ok (parse_time (time point))
  ∧ field (stamped point d) "elevation" = JNum (default 0 (elevation point))
  ∧ field (stamped point d) "distance" = JNum d
  ∧ field (stamped point d) "time" = parse_time (time point).
Proof.
  unfold subscript, field, dict_get, stamped, route_point. by simplify_map_eq.
Qed.

Lemma positive_elevation_test point :
  (if Rlt_dec 0 (default 0 (elevation point)) then true else false)
  = positive_elevation point.
Proof.
  unfold positive_elevation. destruct (elevation point) as [e|]; [done|].
  simpl. destruct (Rlt_dec 0 0); [lra | done].
Qed.

(** The profile loop never raises on stamped points: it keeps the entries of
    the points with a positive elevation, in order. *)
Lemma elevation_profile_loop_returns points ds :
  elevation_profile_loop (zip_with stamped points ds) =
    Ok (profile_of <$>
          (List.filter (λ x, positive_elevation x.1)
             (zip points (zip_with stamped points ds))).*2).
Proof.
  revert ds. induction points as [|p ps IH]; intros [|d ds]; try done.
  cbn [zip_with elevation_profile_loop List.filter zip].
  destruct (stamped_fields p d) as (He & Hd & Ht & Hfe & Hfd & Hft).
  rewrite He. cbn [mbind res_bind is_not_None py_gt_zero as_number].
  rewrite positive_elevation_test. cbn [fst].
  rewrite IH. destruct (positive_elevation p).
  - rewrite Hd, Ht. cbn [mbind res_bind fmap list_fmap snd app].
    unfold profile_of. by rewrite Hfe, Hfd, Hft.
  - reflexivity.
Qed.

Lemma time_of_stamped points ds (o : option json) :
  (∀ x, o = Some x → x ∈ zip_with stamped points ds) →
  time_of o = Ok (default JNull (o ≫= λ x, Some (field x "time"))).
Proof.
  intros Hin. destruct o as [x|]; [|done].
  destruct (elem_of_lookup_zip_with_1 _ _ _ _ (Hin x eq_refl))
    as (i & p & d & -> & _).
  destruct (stamped_fields p d) as (_ & _ & Ht & _ & _ & Hf).
  unfold time_of. rewrite Ht. cbn [mbind option_bind default]. by rewrite Hf.
Qed.

(** The two datasets that the conversion of [points] writes out. *)
Lemma convert_gpx_to_json_returns points :
  let ds := running_distances points 0 None in
  let all_points := zip_with stamped points ds in
  ∃ start_time end_time,
    convert_gpx_to_json points =
      Ok (JObj (<["total_distance" := JNum (default 0 (last ds))]>
               (<["start_time" := start_time]>
               (<["end_time" := end_time]>
               (<["points" := JArr all_points]> ∅)))),
          JObj (<["total_distance" := JNum (default 0 (last ds))]>
               (<["points" :=
                    JArr (profile_of <$>
                            (List.filter (λ x, positive_elevation x.1)
                               (zip points all_points)).*2)]> ∅))).
Proof.
  intros ds all_points. subst all_points ds. unfold convert_gpx_to_json.
  destruct (track_loop_returns points 0 None) as [eps ->].
  cbn [mbind res_bind]. do 2 eexists.
  rewrite elevation_profile_loop_returns. cbn [mbind res_bind].
  rewrite (time_of_stamped points _ (head (zip_with stamped points _)))
    by (intros x Hx; by apply head_Some_elem_of).
  rewrite (time_of_stamped points _ (last (zip_with stamped points _)))
    by (intros x Hx; by apply last_Some_elem_of).
  cbn [mbind res_bind]. reflexivity.
Qed.





(** ** The route stitcher *)

Lemma numeric_or_absent_get m key :
  numeric_or_absent m key = true → ∃ r, dict_get m key (JNum 0) = JNum r.
Proof.
  unfold numeric_or_absent, dict_get.
  destruct (m !! key) as [[]|]; try done; simpl; eauto.
Qed.

Lemma original_distance_number p :
  route_point_ok p = true → ∃ r, original_distance p = JNum r.
Proof. destruct p; try done. apply numeric_or_absent_get. Qed.

Lemma day1_offset_number ps1 :
  Forall (λ p, route_point_ok p = true) ps1 → ∃ r, day1_offset ps1 = JNum r.
Proof.
  intros Hok. unfold day1_offset.
  destruct (last (original_distance <$> ps1)) as [v|] eqn:Hlast; [|by eexists].
  apply last_Some_elem_of, list_elem_of_fmap in Hlast as (p & -> & Hp).
  rewrite Forall_forall in Hok. apply original_distance_number, Hok, Hp.
Qed.

Lemma py_add_numbers a b : py_add (JNum a) (JNum b) = Ok (JNum (a + b)).
Proof. reflexivity. Qed.

(** The day-1 loop on well-formed points: every point is stamped with the
    offset in force when it is reached, and the offset it leaves is its own
    distance. *)
Lemma day1_loop_returns ps c :
  Forall (λ p, route_point_ok p = true) ps →
  day1_loop ps c =
    Ok (zip_with (stitched_point 1) ps (c :: (original_distance <$> ps)),
        default c (last (original_distance <$> ps))).
Proof.
  intros Hok. revert c. induction Hok as [|p ps Hp _ IH]; intros c; [done|].
  destruct p as [| | | | |m]; try done.
  cbn [day1_loop copy_and_tag as_dict mbind res_bind].
  rewrite IH. cbn [mbind res_bind]. rewrite fmap_cons, default_last_cons.
  reflexivity.
Qed.

(** The day-2 loop on well-formed points, for a numeric offset. *)
Lemma day2_loop_returns ps a :
  Forall (λ p, route_point_ok p = true) ps →
  day2_loop ps (JNum a) =
    Ok ((λ p, stitched_point 2 p (JNum (a + number_of (original_distance p))))
          <$> ps).
Proof.
  induction 1 as [|p ps Hp _ IH]; [done|].
  destruct (original_distance_number p Hp) as [r Hr].
  destruct p as [| | | | |m]; try done.
  cbn [day2_loop copy_and_tag as_dict mbind res_bind].
  cbn [original_distance] in Hr. rewrite Hr, py_add_numbers.
  cbn [mbind res_bind]. rewrite IH. cbn [mbind res_bind].
  rewrite fmap_cons. cbn [stitched_point original_distance]. rewrite Hr.
  reflexivity.
Qed.

Lemma stitch_returns m1 m2 ps1 ps2 :
  day_dataset m1 ps1 → day_dataset m2 ps2 →
  stitch m1 m2 (JArr ps1) (JArr ps2) = Ok (stitched_locals m1 m2 ps1 ps2).
Proof.
  intros (_ & Ht1 & Hok1) (_ & Ht2 & Hok2). unfold stitch.
  destruct (numeric_or_absent_get _ _ Ht1) as [t1 Hd1].
  destruct (numeric_or_absent_get _ _ Ht2) as [t2 Hd2].
  rewrite Hd1, Hd2, py_add_numbers. cbn [mbind res_bind py_iter].
  rewrite day1_loop_returns by done. cbn [mbind res_bind].
  fold (day1_offset ps1).
  destruct (day1_offset_number ps1 Hok1) as [r Hr]. rewrite Hr.
  rewrite day2_loop_returns by done. cbn [mbind res_bind].
  unfold stitched_locals, stitched_points. by rewrite Hd1, Hd2, Hr.
Qed.

Lemma report_of_numbers (format_2f : R → string) m1 m2 ps1 ps2 :
  day_dataset m1 ps1 → day_dataset m2 ps2 →
  (report format_2f (stitched_locals m1 m2 ps1 ps2)).2 = None.
Proof.
  intros (_ & Ht1 & _) (_ & Ht2 & _). unfold report, stitched_locals.
  cbn [total_distance day1_distance day2_distance format_arg as_number].
  destruct (numeric_or_absent_get _ _ Ht1) as [t1 ->].
  destruct (numeric_or_absent_get _ _ Ht2) as [t2 ->].
  reflexivity.
Qed.

(** A run on two non-empty day datasets raises nothing and writes the
    combined dataset to the output file. *)
Lemma combine_routes_returns (format_2f : R → string) fs m1 m2 ps1 ps2 :
  day_files fs m1 m2 ps1 ps2 →
  combine_routes format_2f fs =
    {| stdout := (report format_2f (stitched_locals m1 m2 ps1 ps2)).1;
       files := <[output_file :=
                    Parsed (combined_data m1 m2 (stitched_locals m1 m2 ps1 ps2))]> fs;
       raised := None |}.
Proof.
  intros (Hf1 & Hf2 & Hd1 & Hd2 & Hne1 & Hne2).
  pose proof Hd1 as (Hp1 & _). pose proof Hd2 as (Hp2 & _).
  unfold combine_routes, load_route_data. rewrite Hf1, Hf2.
  assert (Hm1 : m1 ≠ ∅) by (intros ->; by rewrite lookup_empty in Hp1).
  assert (Hm2 : m2 ≠ ∅) by (intros ->; by rewrite lookup_empty in Hp2).
  cbn [truthy]. rewrite !bool_decide_eq_false_2 by done.
  cbn [negb orb subscript]. rewrite Hp1, Hp2.
  cbn [mbind res_bind truthy]. rewrite !bool_decide_eq_false_2 by done.
  cbn [negb orb as_dict mbind res_bind].
  rewrite stitch_returns by done. cbn [mbind res_bind].
  pose proof (report_of_numbers format_2f m1 m2 ps1 ps2 Hd1 Hd2) as Hrep.
  destruct (report format_2f (stitched_locals m1 m2 ps1 ps2)) as [lines e].
  cbn in Hrep. by subst e.
Qed.

Lemma stitched_point_fields day p o :
  route_point_ok p = true →
  subscript (stitched_point day p o) "day" = Ok (JNum day)
  ∧ subscript (stitched_point day p o) "original_distance" = Ok (original_distance p)
  ∧ subscript (stitched_point day p o) "distance" = Ok o.
Proof.
  destruct p as [| | | | |m]; try done. intros _.
  unfold subscript, stitched_point, original_distance. by simplify_map_eq.
Qed.

Lemma stitched_points_length ps1 ps2 :
  length (stitched_points ps1 ps2) = (length ps1 + length ps2)%nat.
Proof.
  unfold stitched_points.
  rewrite length_app, length_zip_with, length_fmap. cbn [length].
  rewrite length_fmap. lia.
Qed.

Lemma stitched_points_day1 ps1 ps2 i p :
  ps1 !! i = Some p →
  stitched_points ps1 ps2 !! i =
    Some (stitched_point 1 p
            match i with
            | O => JNum 0
            | S j => default (JNum 0) (original_distance <$> ps1 !! j)
            end).
Proof.
  intros Hp. unfold stitched_points.
  pose proof (lookup_lt_Some _ _ _ Hp) as Hlt.
  rewrite lookup_app_l
    by (rewrite length_zip_with; cbn [length]; rewrite length_fmap; lia).
  rewrite lookup_zip_with, Hp. cbn [mbind option_bind].
  destruct i as [|j]; [done|].
  change ((JNum 0 :: (original_distance <$> ps1)) !! S j)
    with ((original_distance <$> ps1) !! j).
  rewrite list_lookup_fmap.
  destruct (ps1 !! j) as [q|] eqn:Hq; [done|].
  apply lookup_ge_None in Hq. lia.
Qed.

Lemma stitched_points_day2 ps1 ps2 j p :
  ps2 !! j = Some p →
  stitched_points ps1 ps2 !! (length ps1 + j)%nat =
    Some (stitched_point 2 p
            (JNum (number_of (day1_offset ps1) + number_of (original_distance p)))).
Proof.
  intros Hp. unfold stitched_points.
  rewrite lookup_app_r
    by (rewrite length_zip_with; cbn [length]; rewrite length_fmap; lia).
  rewrite length_zip_with. cbn [length]. rewrite length_fmap.
  replace (length ps1 + j - length ps1 `min` S (length ps1))%nat with j by lia.
  by rewrite list_lookup_fmap, Hp.
Qed.

Lemma combined_data_fields m1 m2 l :
  subscript (combined_data m1 m2 l) "total_distance" = Ok (total_distance l)
  ∧ subscript (combined_data m1 m2 l) "day1_distance" = Ok (day1_distance l)
  ∧ subscript (combined_data m1 m2 l) "day2_distance" = Ok (day2_distance l)
  ∧ subscript (combined_data m1 m2 l) "start_time" = Ok (dict_get m1 "start_time" JNull)
  ∧ subscript (combined_data m1 m2 l) "end_time" = Ok (dict_get m2 "end_time" JNull)
  ∧ subscript (combined_data m1 m2 l) "day1_start_index" = Ok (JNum 0)
  ∧ subscript (combined_data m1 m2 l) "day1_end_index" = Ok (JNum (INR (day1_count l) - 1))
  ∧ subscript (combined_data m1 m2 l) "day2_start_index" = Ok (JNum (INR (day1_count l)))
  ∧ subscript (combined_data m1 m2 l) "day2_end_index"
      = Ok (JNum (INR (length (combined_points l)) - 1))
  ∧ subscript (combined_data m1 m2 l) "points" = Ok (JArr (combined_points l)).
Proof. unfold subscript, combined_data. by simplify_map_eq. Qed.

(** C1: on two non-empty day datasets the run writes a combined dataset in
    which every day-1 point has day 1, keeps its own distance as
    [original_distance], and has as [distance] the offset in force before it
    was reached: 0 for the first point, the pre-stitch distance of the
    preceding day-1 point for every later one.  With two or more day-1 points
    the last of them therefore carries the pre-stitch distance of the
    second-to-last, whatever its own distance is. *)
Theorem day1_points_stamped_with_previous_offset
    (format_2f : R → string) fs m1 m2 ps1 ps2 :
  day_files fs m1 m2 ps1 ps2 →
  ∃ data cps,
    raised (combine_routes format_2f fs) = None
    ∧ files (combine_routes format_2f fs) !! output_file = Some (Parsed data)
    ∧ subscript data "points" = Ok (JArr cps)
    ∧ (∀ i p, ps1 !! i = Some p →
         ∃ cp, cps !! i = Some cp
           ∧ subscript cp "day" = Ok (JNum 1)
           ∧ subscript cp "original_distance" = Ok (original_distance p)
           ∧ subscript cp "distance"
             = Ok match i with
                  | O => JNum 0
                  | S j => default (JNum 0) (original_distance <$> ps1 !! j)
                  end)
    ∧ ((2 ≤ length ps1)%nat →
         ∃ cp q, cps !! (length ps1 - 1)%nat = Some cp
           ∧ ps1 !! (length ps1 - 2)%nat = Some q
           ∧ subscript cp "distance" = Ok (original_distance q)).
Proof.
  intros Hfiles. rewrite (combine_routes_returns _ _ _ _ _ _ Hfiles).
  destruct Hfiles as (_ & _ & (_ & _ & Hok1) & _ & _ & _).
  rewrite Forall_forall in Hok1.
  set (l := stitched_locals m1 m2 ps1 ps2).
  exists (combined_data m1 m2 l), (stitched_points ps1 ps2). cbn [files raised].
  split; [done|]. split; [by rewrite lookup_insert_eq|].
  split; [apply combined_data_fields|].
  assert (Hday1 : ∀ i p, ps1 !! i = Some p →
            ∃ cp, stitched_points ps1 ps2 !! i = Some cp
              ∧ subscript cp "day" = Ok (JNum 1)
              ∧ subscript cp "original_distance" = Ok (original_distance p)
              ∧ subscript cp "distance"
                = Ok match i with
                     | O => JNum 0
                     | S j => default (JNum 0) (original_distance <$> ps1 !! j)
                     end).
  { intros i p Hp. eexists. split; [by apply stitched_points_day1|].
    apply stitched_point_fields, Hok1. by eapply list_elem_of_lookup_2. }
  split; [exact Hday1|].
  intros Hlen.
  destruct (lookup_lt_is_Some_2 ps1 (length ps1 - 1)) as [p Hp]; [lia|].
  destruct (lookup_lt_is_Some_2 ps1 (length ps1 - 2)) as [q Hq]; [lia|].
  destruct (Hday1 _ _ Hp) as (cp & Hcp & _ & _ & Hdist).
  exists cp, q. split; [done|]. split; [done|].
  rewrite Hdist. replace (length ps1 - 1)%nat with (S (length ps1 - 2)) by lia.
  by rewrite Hq.
Qed.

(** The day-2 loop adds the offset that the day-1 loop leaves, which is the
    pre-stitch distance of the last day-1 point (line 58): every day-2 point
    of the combined dataset has day 2, keeps its own distance as
    [original_distance], and has as [distance] that offset plus its own
    pre-stitch distance. *)
Lemma day2_points_offset_by_last_day1_distance
    (format_2f : R → string) fs m1 m2 ps1 ps2 :
  day_files fs m1 m2 ps1 ps2 →
  ∃ data cps,
    raised (combine_routes format_2f fs) = None
    ∧ files (combine_routes format_2f fs) !! output_file = Some (Parsed data)
    ∧ subscript data "points" = Ok (JArr cps)
    ∧ (∀ j p, ps2 !! j = Some p →
         ∃ cp (d : R), cps !! (length ps1 + j)%nat = Some cp
           ∧ subscript cp "day" = Ok (JNum 2)
           ∧ subscript cp "original_distance" = Ok (original_distance p)
           ∧ subscript cp "distance" = Ok (JNum d)
           ∧ py_add (day1_offset ps1) (original_distance p) = Ok (JNum d)
           ∧ (dict_get m1 "total_distance" (JNum 0) = day1_offset ps1 →
                py_add (dict_get m1 "total_distance" (JNum 0)) (original_distance p)
                  = Ok (JNum d))).
Proof.
  intros Hfiles. rewrite (combine_routes_returns _ _ _ _ _ _ Hfiles).
  destruct Hfiles as (_ & _ & (_ & _ & Hok1) & (_ & _ & Hok2) & _ & _).
  rewrite Forall_forall in Hok2.
  set (l := stitched_locals m1 m2 ps1 ps2).
  exists (combined_data m1 m2 l), (stitched_points ps1 ps2). cbn [files raised].
  split; [done|]. split; [by rewrite lookup_insert_eq|].
  split; [apply combined_data_fields|].
  intros j p Hp.
  assert (Hokp : route_point_ok p = true)
    by (apply Hok2; by eapply list_elem_of_lookup_2).
  destruct (stitched_point_fields 2 p
              (JNum (number_of (day1_offset ps1) + number_of (original_distance p)))
              Hokp) as (Hday & Horig & Hdist).
  destruct (day1_offset_number ps1 Hok1) as [a Ha].
  destruct (original_distance_number p Hokp) as [b Hb].
  eexists _, _. split; [by apply stitched_points_day2|].
  split; [exact Hday|]. split; [exact Horig|]. split; [exact Hdist|].
  rewrite Ha, Hb. split; [reflexivity|]. by intros ->.
Qed.

(** In a day dataset whose total is the distance of its last point, the
    offset that the day-1 loop leaves is that total. *)
Lemma day1_offset_total m1 ps1 :
  ps1 ≠ [] → total_is_last_distance m1 ps1 →
  day1_offset ps1 = dict_get m1 "total_distance" (JNum 0).
Proof.
  intros Hne Hinv. unfold day1_offset. rewrite fmap_last.
  destruct (last ps1) as [q|] eqn:Hlast.
  - cbn [fmap option_fmap option_map default]. symmetry. by apply Hinv.
  - by apply last_None in Hlast.
Qed.

(** C2: on two non-empty day datasets, day 1 having as its total the
    distance of its last point as every single-day route dataset has, the
    run writes a combined dataset in which the day-2 points follow the day-1
    points and each of them has day 2, keeps its own distance as
    [original_distance], and has as [distance] the total distance of day 1
    plus its own pre-stitch distance. *)
Theorem day2_points_rebased_on_day1_total
    (format_2f : R → string) fs m1 m2 ps1 ps2 :
  day_files fs m1 m2 ps1 ps2 →
  total_is_last_distance m1 ps1 →
  ∃ data cps (total1 : R),
    raised (combine_routes format_2f fs) = None
    ∧ files (combine_routes format_2f fs) !! output_file = Some (Parsed data)
    ∧ subscript data "points" = Ok (JArr cps)
    ∧ length cps = (length ps1 + length ps2)%nat
    ∧ dict_get m1 "total_distance" (JNum 0) = JNum total1
    ∧ (∀ j p, ps2 !! j = Some p →
         ∃ cp (own : R), cps !! (length ps1 + j)%nat = Some cp
           ∧ original_distance p = JNum own
           ∧ subscript cp "day" = Ok (JNum 2)
           ∧ subscript cp "original_distance" = Ok (JNum own)
           ∧ subscript cp "distance" = Ok (JNum (total1 + own))).
Proof.
  intros Hfiles Hinv. rewrite (combine_routes_returns _ _ _ _ _ _ Hfiles).
  destruct Hfiles as (_ & _ & (_ & Ht1 & Hok1) & (_ & _ & Hok2) & Hne1 & _).
  rewrite Forall_forall in Hok2.
  destruct (numeric_or_absent_get _ _ Ht1) as [total1 Htotal1].
  pose proof (day1_offset_total m1 ps1 Hne1 Hinv) as Hoff.
  rewrite Htotal1 in Hoff.
  set (l := stitched_locals m1 m2 ps1 ps2).
  exists (combined_data m1 m2 l), (stitched_points ps1 ps2), total1.
  cbn [files raised].
  split; [done|]. split; [by rewrite lookup_insert_eq|].
  split; [apply combined_data_fields|].
  split; [apply stitched_points_length|].
  split; [exact Htotal1|].
  intros j p Hp.
  assert (Hokp : route_point_ok p = true)
    by (apply Hok2; by eapply list_elem_of_lookup_2).
  destruct (original_distance_number p Hokp) as [own Hown].
  destruct (stitched_point_fields 2 p
              (JNum (number_of (day1_offset ps1) + number_of (original_distance p)))
              Hokp) as (Hday & Horig & Hdist).
  eexists _, own. split; [by apply stitched_points_day2|].
  split; [exact Hown|]. split; [exact Hday|].
  split; [by rewrite Horig, Hown|].
  by rewrite Hdist, Hoff, Hown.
Qed.

(** C4: on two non-empty day datasets the header of the combined dataset
    holds the sum of the two stored totals, the start time of day 1, the end
    time of day 2, and index bounds computed from the point counts. *)
Theorem combined_header_fields (format_2f : R → string) fs m1 m2 ps1 ps2 :
  day_files fs m1 m2 ps1 ps2 →
  ∃ data cps (total : R),
    raised (combine_routes format_2f fs) = None
    ∧ files (combine_routes format_2f fs) !! output_file = Some (Parsed data)
    ∧ subscript data "points" = Ok (JArr cps)
    ∧ length cps = (length ps1 + length ps2)%nat
    ∧ subscript data "total_distance" = Ok (JNum total)
    ∧ py_add (dict_get m1 "total_distance" (JNum 0))
             (dict_get m2 "total_distance" (JNum 0)) = Ok (JNum total)
    ∧ subscript data "day1_distance" = Ok (dict_get m1 "total_distance" (JNum 0))
    ∧ subscript data "day2_distance" = Ok (dict_get m2 "total_distance" (JNum 0))
    ∧ subscript data "start_time" = Ok (dict_get m1 "start_time" JNull)
    ∧ subscript data "end_time" = Ok (dict_get m2 "end_time" JNull)
    ∧ subscript data "day1_start_index" = Ok (JNum 0)
    ∧ subscript data "day1_end_index" = Ok (JNum (INR (length ps1) - 1))
    ∧ subscript data "day2_start_index" = Ok (JNum (INR (length ps1)))
    ∧ subscript data "day2_end_index" = Ok (JNum (INR (length cps) - 1))
    ∧ INR (length ps1) - 1 + 1 = INR (length ps1).
Proof.
  intros Hfiles. rewrite (combine_routes_returns _ _ _ _ _ _ Hfiles).
  destruct Hfiles as (_ & _ & (_ & Ht1 & _) & (_ & Ht2 & _) & _ & _).
  set (l := stitched_locals m1 m2 ps1 ps2).
  destruct (combined_data_fields m1 m2 l)
    as (H1 & H2 & H3 & H4 & H5 & H6 & H7 & H8 & H9 & H10).
  exists (combined_data m1 m2 l), (stitched_points ps1 ps2),
    (number_of (dict_get m1 "total_distance" (JNum 0))
     + number_of (dict_get m2 "total_distance" (JNum 0))).
  cbn [files raised].
  split; [done|]. split; [by rewrite lookup_insert_eq|].
  split; [exact H10|]. split; [apply stitched_points_length|].
  split; [exact H1|]. split.
  { destruct (numeric_or_absent_get _ _ Ht1) as [t1 ->].
    destruct (numeric_or_absent_get _ _ Ht2) as [t2 ->]. reflexivity. }
  repeat (split; [done|]). lra.
Qed.

Lemma unavailable_load fs name :
  unavailable fs name = negb (truthy (load_route_data fs name).1).
Proof.
  unfold unavailable, load_route_data. by destruct (fs !! name) as [[|j]|].
Qed.

(** The run stops at the first check when one of the two loads gave nothing. *)
Lemma combine_routes_not_loaded (format_2f : R → string) fs :
  unavailable fs "data/route-day1.json" = true
  ∨ unavailable fs "data/route-day2.json" = true →
  combine_routes format_2f fs =
    {| stdout := ((load_route_data fs "data/route-day1.json").2
                  ++ (load_route_data fs "data/route-day2.json").2)
                 ++ ["Could not load route data!"];
       files := fs;
       raised := None |}.
Proof.
  rewrite !unavailable_load. unfold combine_routes.
  destruct (load_route_data fs "data/route-day1.json") as [d1 out1].
  destruct (load_route_data fs "data/route-day2.json") as [d2 out2].
  cbn [fst snd]. intros [H|H]; rewrite H; [done|].
  by rewrite orb_true_r.
Qed.

(** The output file is written only after both point sequences passed the
    emptiness check. *)
Lemma combine_routes_keeps_files (format_2f : R → string) fs :
  (∀ p1 p2,
     subscript (load_route_data fs "data/route-day1.json").1 "points" = Ok p1 →
     subscript (load_route_data fs "data/route-day2.json").1 "points" = Ok p2 →
     truthy p1 = true → truthy p2 = true → False) →
  files (combine_routes format_2f fs) = fs.
Proof.
  unfold combine_routes.
  destruct (load_route_data fs "data/route-day1.json") as [d1 out1].
  destruct (load_route_data fs "data/route-day2.json") as [d2 out2].
  cbn [fst snd]. intros Hno.
  destruct (negb (truthy d1) || negb (truthy d2)); [done|].
  destruct (subscript d1 "points") as [p1|e1]; [|done].
  destruct (subscript d2 "points") as [p2|e2]; [|done].
  cbn [mbind res_bind].
  destruct (truthy p1) eqn:Ht1; [|done]. destruct (truthy p2) eqn:Ht2; [|done].
  destruct (Hno p1 p2); done.
Qed.

Lemma truthy_empty_list : truthy (JArr []) = false.
Proof. cbn [truthy]. by rewrite bool_decide_eq_true_2. Qed.

Lemma load_parsed fs name j :
  fs !! name = Some (Parsed j) → load_route_data fs name = (j, []).
Proof. unfold load_route_data. by intros ->. Qed.

(** C6: when a dataset is missing (its file is absent, unparsable or holds
    an empty document) the run prints that the data could not be loaded and
    returns; when both files hold a dict with a [points] entry and one of the
    two sequences is empty, it prints that no points were found and returns.
    In both cases, and whenever one of the files holds a dataset with an
    empty point sequence, the file system is left as it was: no combined
    file is written. *)
Theorem combine_routes_fails_fast (format_2f : R → string) fs :
  (unavailable fs "data/route-day1.json" = true
   ∨ unavailable fs "data/route-day2.json" = true →
     files (combine_routes format_2f fs) = fs
     ∧ raised (combine_routes format_2f fs) = None
     ∧ last (stdout (combine_routes format_2f fs))
       = Some "Could not load route data!"%string)
  ∧ (∀ m1 m2 v1 v2,
       fs !! "data/route-day1.json" = Some (Parsed (JObj m1)) →
       fs !! "data/route-day2.json" = Some (Parsed (JObj m2)) →
       m1 !! "points" = Some v1 → m2 !! "points" = Some v2 →
       v1 = JArr [] ∨ v2 = JArr [] →
       files (combine_routes format_2f fs) = fs
       ∧ raised (combine_routes format_2f fs) = None
       ∧ stdout (combine_routes format_2f fs)
         = ["No points found in route data!"%string])
  ∧ (has_no_points fs "data/route-day1.json"
     ∨ has_no_points fs "data/route-day2.json" →
     files (combine_routes format_2f fs) = fs).
Proof.
  split; [|split].
  - intros H. rewrite (combine_routes_not_loaded _ _ H). cbn [files raised stdout].
    by rewrite last_snoc.
  - intros m1 m2 v1 v2 Hf1 Hf2 Hp1 Hp2 Hempty.
    unfold combine_routes. rewrite (load_parsed _ _ _ Hf1), (load_parsed _ _ _ Hf2).
    assert (Hm1 : m1 ≠ ∅) by (intros ->; by rewrite lookup_empty in Hp1).
    assert (Hm2 : m2 ≠ ∅) by (intros ->; by rewrite lookup_empty in Hp2).
    cbn [truthy]. rewrite !bool_decide_eq_false_2 by done.
    cbn [negb orb subscript]. rewrite Hp1, Hp2. cbn [mbind res_bind].
    assert (negb (truthy v1) || negb (truthy v2) = true) as ->.
    { destruct Hempty as [-> | ->]; rewrite truthy_empty_list; [done|].
      apply orb_true_r. }
    done.
  - intros Hnone. apply combine_routes_keeps_files.
    intros p1 p2 Hs1 Hs2 Ht1 Ht2.
    destruct Hnone as [(m & Hf & Hp) | (m & Hf & Hp)].
    + rewrite (load_parsed _ _ _ Hf) in Hs1. cbn [fst subscript] in Hs1.
      rewrite Hp in Hs1. injection Hs1 as <-. by rewrite truthy_empty_list in Ht1.
    + rewrite (load_parsed _ _ _ Hf) in Hs2. cbn [fst subscript] in Hs2.
      rewrite Hp in Hs2. injection Hs2 as <-. by rewrite truthy_empty_list in Ht2.
Qed.

(** ** The path projector *)

Lemma foldl_Rmin_spec x l :
  foldl Rmin x l <= x
  ∧ (∀ y, y ∈ l → foldl Rmin x l <= y)
  ∧ (foldl Rmin x l = x ∨ foldl Rmin x l ∈ l).
Proof.
  revert x. induction l as [|a l IH]; intros x; cbn [foldl].
  - split; [lra|]. split; [by intros y Hy%elem_of_nil | by left].
  - destruct (IH (Rmin x a)) as (Hle & Hall & Hin).
    pose proof (Rmin_l x a). pose proof (Rmin_r x a).
    split; [lra|]. split.
    + intros y [->|Hy]%elem_of_cons; [lra | by apply Hall].
    + destruct Hin as [Heq|Hin]; [|right; by right].
      rewrite Heq. unfold Rmin. destruct (Rle_dec x a); [by left | right; by left].
Qed.

Lemma foldl_Rmax_spec x l :
  x <= foldl Rmax x l
  ∧ (∀ y, y ∈ l → y <= foldl Rmax x l)
  ∧ (foldl Rmax x l = x ∨ foldl Rmax x l ∈ l).
Proof.
  revert x. induction l as [|a l IH]; intros x; cbn [foldl].
  - split; [lra|]. split; [by intros y Hy%elem_of_nil | by left].
  - destruct (IH (Rmax x a)) as (Hle & Hall & Hin).
    pose proof (Rmax_l x a). pose proof (Rmax_r x a).
    split; [lra|]. split.
    + intros y [->|Hy]%elem_of_cons; [lra | by apply Hall].
    + destruct Hin as [Heq|Hin]; [|right; by right].
      rewrite Heq. unfold Rmax. destruct (Rle_dec x a); [right; by left | by left].
Qed.

(** [min] and [max] of a coordinate over a non-empty point list: bounds that
    are attained. *)
Lemma py_min_max_spec {A} (f : A → R) (points : list A) :
  points ≠ [] →
  ∃ lo hi,
    py_min (f <$> points) = Ok lo ∧ py_max (f <$> points) = Ok hi
    ∧ (∀ p, p ∈ points → lo <= f p <= hi)
    ∧ (∃ p, p ∈ points ∧ f p = lo)
    ∧ (∃ p, p ∈ points ∧ f p = hi).
Proof.
  destruct points as [|p0 ps]; [done|]. intros _. rewrite fmap_cons.
  cbn [py_min py_max]. eexists _, _. split; [done|]. split; [done|].
  destruct (foldl_Rmin_spec (f p0) (f <$> ps)) as (Hlo0 & Hlo & Hloin).
  destruct (foldl_Rmax_spec (f p0) (f <$> ps)) as (Hhi0 & Hhi & Hhiin).
  split; [|split].
  - intros p [->|Hp]%elem_of_cons; [lra|].
    split; [apply Hlo | apply Hhi]; by apply list_elem_of_fmap_2.
  - destruct Hloin as [Heq|(q & Hq & Hin)%list_elem_of_fmap].
    + exists p0. split; [by left | done].
    + exists q. split; [by right | done].
  - destruct Hhiin as [Heq|(q & Hq & Hin)%list_elem_of_fmap].
    + exists p0. split; [by left | done].
    + exists q. split; [by right | done].
Qed.

Lemma unit_fraction a d : 0 <= a <= d → 0 < d → 0 <= a / d <= 1.
Proof.
  intros Ha Hd. pose proof (Rinv_0_lt_compat d Hd) as Hinv.
  assert (d * / d = 1) as Hone by (apply Rinv_r; lra).
  unfold Rdiv. split; nra.
Qed.

Lemma project_returns min_lat max_lat min_lon max_lon p :
  max_lon - min_lon ≠ 0 → max_lat - min_lat ≠ 0 →
  project min_lat max_lat min_lon max_lon p
  = Ok (scaled min_lat max_lat min_lon max_lon p).
Proof.
  intros Hlon Hlat. unfold project, py_div, scaled.
  destruct (Req_EM_T (max_lon - min_lon) 0); [done|]. cbn [mbind res_bind].
  destruct (Req_EM_T (max_lat - min_lat) 0); [done|]. reflexivity.
Qed.

Lemma project_zero_span min_lat max_lat min_lon max_lon p :
  max_lon - min_lon = 0 ∨ max_lat - min_lat = 0 →
  project min_lat max_lat min_lon max_lon p = Raise ZeroDivisionError.
Proof.
  intros Hzero. unfold project, py_div.
  destruct (Req_EM_T (max_lon - min_lon) 0) as [|Hlon]; [done|].
  cbn [mbind res_bind].
  destruct (Req_EM_T (max_lat - min_lat) 0) as [|Hlat]; [done|].
  by destruct Hzero.
Qed.

Lemma path_loop_lines (format_2f : R → string) min_lat max_lat min_lon max_lon
    i points :
  max_lon - min_lon ≠ 0 → max_lat - min_lat ≠ 0 →
  path_loop format_2f min_lat max_lat min_lon max_lon (S i) points
  = Ok (line_to format_2f <$> (scaled min_lat max_lat min_lon max_lon <$> points)).
Proof.
  intros Hlon Hlat. revert i. induction points as [|p ps IH]; intros i; [done|].
  cbn [path_loop]. rewrite project_returns by done. cbn [mbind res_bind].
  by rewrite IH.
Qed.

Lemma scaled_range min_lat max_lat min_lon max_lon p :
  min_lat <= lat p <= max_lat → min_lon <= lon p <= max_lon →
  min_lat < max_lat → min_lon < max_lon →
  0 <= (scaled min_lat max_lat min_lon max_lon p).1 <= 1000
  ∧ 0 <= (scaled min_lat max_lat min_lon max_lon p).2 <= 500
  ∧ (lon p = min_lon → (scaled min_lat max_lat min_lon max_lon p).1 = 0)
  ∧ (lon p = max_lon → (scaled min_lat max_lat min_lon max_lon p).1 = 1000)
  ∧ (lat p = max_lat → (scaled min_lat max_lat min_lon max_lon p).2 = 0)
  ∧ (lat p = min_lat → (scaled min_lat max_lat min_lon max_lon p).2 = 500).
Proof.
  intros Hlat Hlon Hlats Hlons. unfold scaled. cbn [fst snd].
  pose proof (unit_fraction (lon p - min_lon) (max_lon - min_lon)) as Hx.
  pose proof (unit_fraction (max_lat - lat p) (max_lat - min_lat)) as Hy.
  split; [lra|]. split; [lra|].
  split; [intros ->; unfold Rdiv; ring|].
  split; [intros ->; field; lra|].
  split; [intros ->; unfold Rdiv; ring|].
  intros ->; field; lra.
Qed.

(** C8: when the latitudes are not all equal and the longitudes are not all
    equal, the projector returns, without a division by zero, a move-to
    command for the first point followed by line-to commands for the others;
    each longitude is scaled linearly from [min_lon, max_lon] to [0, 1000]
    and each latitude from [min_lat, max_lat] to [500, 0], so that the
    largest latitude is drawn at y = 0.  When all points of a non-empty list
    share one latitude or one longitude, the call raises
    [ZeroDivisionError]. *)
Theorem path_projection (format_2f : R → string) (points : list coordinate) :
  (¬ constant_on lat points → ¬ constant_on lon points →
     ∃ min_lat max_lat min_lon max_lon p0 rest,
       points = p0 :: rest
       ∧ (∀ p, p ∈ points → min_lat <= lat p <= max_lat ∧ min_lon <= lon p <= max_lon)
       ∧ (∃ p, p ∈ points ∧ lat p = min_lat) ∧ (∃ p, p ∈ points ∧ lat p = max_lat)
       ∧ (∃ p, p ∈ points ∧ lon p = min_lon) ∧ (∃ p, p ∈ points ∧ lon p = max_lon)
       ∧ create_svg_path_from_coordinates format_2f points
         = Ok (String.concat " "
                 (move_to format_2f (scaled min_lat max_lat min_lon max_lon p0)
                  :: (line_to format_2f
                        <$> (scaled min_lat max_lat min_lon max_lon <$> rest))))
       ∧ (∀ p, p ∈ points →
            0 <= (scaled min_lat max_lat min_lon max_lon p).1 <= 1000
            ∧ 0 <= (scaled min_lat max_lat min_lon max_lon p).2 <= 500
            ∧ (lon p = min_lon → (scaled min_lat max_lat min_lon max_lon p).1 = 0)
            ∧ (lon p = max_lon → (scaled min_lat max_lat min_lon max_lon p).1 = 1000)
            ∧ (lat p = max_lat → (scaled min_lat max_lat min_lon max_lon p).2 = 0)
            ∧ (lat p = min_lat → (scaled min_lat max_lat min_lon max_lon p).2 = 500)))
  ∧ (points ≠ [] → constant_on lat points ∨ constant_on lon points →
       create_svg_path_from_coordinates format_2f points = Raise ZeroDivisionError).
Proof.
  destruct points as [|p0 rest].
  { split; [|done]. intros Hlat. destruct Hlat. by intros p q Hp%elem_of_nil. }
  destruct (py_min_max_spec lat (p0 :: rest)) as
    (min_lat & max_lat & Hminlat & Hmaxlat & Hlatb & Hlatlo & Hlathi); [done|].
  destruct (py_min_max_spec lon (p0 :: rest)) as
    (min_lon & max_lon & Hminlon & Hmaxlon & Hlonb & Hlonlo & Hlonhi); [done|].
  unfold create_svg_path_from_coordinates.
  rewrite Hminlat, Hmaxlat, Hminlon, Hmaxlon. cbn [mbind res_bind path_loop].
  split.
  - intros Hnlat Hnlon.
    assert (min_lat < max_lat) as Hlats.
    { destruct (Rlt_le_dec min_lat max_lat) as [|Hge]; [done|].
      destruct Hnlat. intros p q Hp Hq.
      pose proof (Hlatb p Hp). pose proof (Hlatb q Hq). lra. }
    assert (min_lon < max_lon) as Hlons.
    { destruct (Rlt_le_dec min_lon max_lon) as [|Hge]; [done|].
      destruct Hnlon. intros p q Hp Hq.
      pose proof (Hlonb p Hp). pose proof (Hlonb q Hq). lra. }
    exists min_lat, max_lat, min_lon, max_lon, p0, rest.
    split; [done|].
    split; [intros p Hp; split; [by apply Hlatb | by apply Hlonb]|].
    do 4 (split; [done|]).
    split.
    + rewrite project_returns by lra. cbn [mbind res_bind].
      rewrite path_loop_lines by lra. reflexivity.
    + intros p Hp. apply scaled_range; [by apply Hlatb | by apply Hlonb | done | done].
  - intros _ Hconst.
    rewrite project_zero_span; [done|].
    destruct Hlatlo as (a & Ha & <-). destruct Hlathi as (b & Hb & <-).
    destruct Hlonlo as (c & Hc & <-). destruct Hlonhi as (d & Hd & <-).
    destruct Hconst as [Hconst|Hconst].
    + right. rewrite (Hconst b a) by done. lra.
    + left. rewrite (Hconst d c) by done. lra.
Qed.

(** C10: on the empty point list the projector returns the empty string; no
    minimum, maximum or quotient is computed. *)
Theorem path_projection_of_no_points (format_2f : R → string) :
  create_svg_path_from_coordinates format_2f [] = Ok EmptyString.
Proof. reflexivity. Qed.

(** ** From the converter to the stitcher *)

Lemma stamped_ok point d :
  route_point_ok (stamped point d) = true
  ∧ original_distance (stamped point d) = JNum d.
Proof.
  unfold route_point_ok, original_distance, numeric_or_absent, dict_get,
    stamped, route_point.
  by simplify_map_eq.
Qed.

Lemma stamped_original_distances points ds :
  length ds = length points →
  original_distance <$> zip_with stamped points ds = JNum <$> ds.
Proof.
  revert ds. induction points as [|p ps IH]; intros [|d ds] Hlen; try done.
  cbn [zip_with fmap list_fmap].
  destruct (stamped_ok p d) as [_ ->]. f_equal. apply IH. simpl in Hlen. lia.
Qed.

(** A route dataset written by the converter is a day dataset for the
    stitcher, and its total is the distance of its last point: for such a
    day 1 the offset of the day-2 points is [day1.total_distance]. *)
Lemma converted_route_is_day_dataset points route elevation_data :
  convert_gpx_to_json points = Ok (route, elevation_data) →
  ∃ m all_points,
    route = JObj m
    ∧ day_dataset m all_points
    ∧ length all_points = length points
    ∧ (points ≠ [] → dict_get m "total_distance" (JNum 0) = day1_offset all_points).
Proof.
  destruct (convert_gpx_to_json_returns points) as (st & et & ->).
  intros [= <- _].
  set (ds := running_distances points 0 None).
  assert (Hlen : length ds = length points) by apply running_distances_length.
  eexists _, (zip_with stamped points ds). split; [reflexivity|].
  split; [|split].
  - unfold day_dataset, numeric_or_absent.
    split; [by simplify_map_eq|]. split; [by simplify_map_eq|].
    apply Forall_forall. intros x (i & p & d & -> & _)%elem_of_lookup_zip_with_1.
    apply stamped_ok.
  - rewrite length_zip_with. lia.
  - intros Hne. unfold day1_offset, dict_get.
    rewrite stamped_original_distances, fmap_last by done.
    simplify_map_eq. destruct (last ds) as [t|] eqn:Hlast; [done|].
    apply last_None in Hlast. destruct points; [done|]. by rewrite Hlast in Hlen.
Qed.

(** ** More on the track accumulator *)












(** ** More on the route stitcher *)

(** A run whose two loads give dicts with non-empty [points], and whose loops
    succeed, writes the combined dataset and then prints its report. *)
Lemma combine_routes_run (format_2f : R → string) fs m1 m2 out1 out2 p1 p2 l :
  load_route_data fs "data/route-day1.json" = (JObj m1, out1) →
  load_route_data fs "data/route-day2.json" = (JObj m2, out2) →
  m1 !! "points" = Some p1 → m2 !! "points" = Some p2 →
  truthy p1 = true → truthy p2 = true →
  stitch m1 m2 p1 p2 = Ok l →
  combine_routes format_2f fs =
    {| stdout := (out1 ++ out2) ++ (report format_2f l).1;
       files := <[output_file := Parsed (combined_data m1 m2 l)]> fs;
       raised := (report format_2f l).2 |}.
Proof.
  intros Hl1 Hl2 Hp1 Hp2 Ht1 Ht2 Hstitch.
  unfold combine_routes. rewrite Hl1, Hl2.
  assert (Hm1 : m1 ≠ ∅) by (intros ->; by rewrite lookup_empty in Hp1).
  assert (Hm2 : m2 ≠ ∅) by (intros ->; by rewrite lookup_empty in Hp2).
  cbn [truthy]. rewrite !bool_decide_eq_false_2 by done.
  cbn [negb orb subscript]. rewrite Hp1, Hp2. cbn [mbind res_bind].
  rewrite Ht1, Ht2. cbn [negb orb as_dict mbind res_bind].
  rewrite Hstitch. cbn [mbind res_bind].
  by destruct (report format_2f l).
Qed.

(** Every run either leaves the file system as it was or is a run as in
    [combine_routes_run]. *)
Lemma combine_routes_cases (format_2f : R → string) fs :
  files (combine_routes format_2f fs) = fs
  ∨ ∃ m1 m2 out1 out2 p1 p2 l,
      load_route_data fs "data/route-day1.json" = (JObj m1, out1)
      ∧ load_route_data fs "data/route-day2.json" = (JObj m2, out2)
      ∧ m1 !! "points" = Some p1 ∧ m2 !! "points" = Some p2
      ∧ truthy p1 = true ∧ truthy p2 = true
      ∧ stitch m1 m2 p1 p2 = Ok l.
Proof.
  unfold combine_routes.
  destruct (load_route_data fs "data/route-day1.json") as [d1 out1].
  destruct (load_route_data fs "data/route-day2.json") as [d2 out2].
  destruct (negb (truthy d1) || negb (truthy d2)); [by left|].
  destruct d1 as [| | | | |m1]; try by left.
  destruct d2 as [| | | | |m2];
    try (cbn [subscript]; destruct (m1 !! "points"); by left).
  cbn [subscript].
  destruct (m1 !! "points") as [p1|] eqn:Hp1; [|by left].
  destruct (m2 !! "points") as [p2|] eqn:Hp2; [|by left].
  cbn [mbind res_bind].
  destruct (truthy p1) eqn:Ht1; [|by left].
  destruct (truthy p2) eqn:Ht2; [|by left].
  cbn [negb orb as_dict mbind res_bind].
  destruct (stitch m1 m2 p1 p2) as [l|e] eqn:Hstitch; [|by left].
  right. by exists m1, m2, out1, out2, p1, p2, l.
Qed.

Lemma load_after_write fs x name :
  name ≠ output_file →
  load_route_data (<[output_file := x]> fs) name = load_route_data fs name.
Proof. intros Hne. unfold load_route_data. by rewrite lookup_insert_ne. Qed.

Lemma day1_loop_fields ps c cps c' :
  day1_loop ps c = Ok (cps, c') → Forall has_stitch_fields cps.
Proof.
  revert c cps c'. induction ps as [|p ps IH]; intros c cps c'.
  - intros [= <- _]. constructor.
  - cbn [day1_loop]. destruct p as [| | | | |m]; try done.
    cbn [copy_and_tag as_dict mbind res_bind].
    destruct (day1_loop ps _) as [[tl c'']|e] eqn:Hloop; [|done].
    cbn [mbind res_bind]. intros [= <- _]. constructor; [|by eapply IH].
    eexists. split; [done|]. by simplify_map_eq.
Qed.

Lemma day2_loop_fields ps c cps :
  day2_loop ps c = Ok cps → Forall has_stitch_fields cps.
Proof.
  revert cps. induction ps as [|p ps IH]; intros cps.
  - intros [= <-]. constructor.
  - cbn [day2_loop]. destruct p as [| | | | |m]; try done.
    cbn [copy_and_tag as_dict mbind res_bind].
    destruct (py_add c _) as [d|e]; [|done]. cbn [mbind res_bind].
    destruct (day2_loop ps c) as [tl|e] eqn:Hloop; [|done].
    cbn [mbind res_bind]. intros [= <-]. constructor; [|by eapply IH].
    eexists. split; [done|]. by simplify_map_eq.
Qed.

Lemma stitch_fields m1 m2 p1 p2 l :
  stitch m1 m2 p1 p2 = Ok l → Forall has_stitch_fields (combined_points l).
Proof.
  unfold stitch. destruct (py_add _ _) as [t|e]; [|done]. cbn [mbind res_bind].
  destruct (py_iter p1) as [items1|e]; [|done]. cbn [mbind res_bind].
  destruct (day1_loop items1 (JNum 0)) as [[c1 cum]|e] eqn:H1; [|done].
  cbn [mbind res_bind].
  destruct (py_iter p2) as [items2|e]; [|done]. cbn [mbind res_bind].
  destruct (day2_loop items2 cum) as [c2|e] eqn:H2; [|done].
  cbn [mbind res_bind]. intros [= <-]. cbn [combined_points].
  apply Forall_app. split; [by eapply day1_loop_fields | by eapply day2_loop_fields].
Qed.

(** X9: whatever the input files hold, a run never changes a file other than
    the output file; in particular it leaves both input files as they
    were. *)
Theorem combine_routes_touches_only_output (format_2f : R → string) fs name :
  name ≠ output_file →
  files (combine_routes format_2f fs) !! name = fs !! name.
Proof.
  intros Hne.
  destruct (combine_routes_cases format_2f fs)
    as [-> | (m1 & m2 & o1 & o2 & p1 & p2 & l & H1 & H2 & H3 & H4 & H5 & H6 & H7)];
    [done|].
  rewrite (combine_routes_run _ _ _ _ _ _ _ _ _ H1 H2 H3 H4 H5 H6 H7).
  cbn [files]. by rewrite lookup_insert_ne.
Qed.

(** X10: whatever the input files hold, a run writes all or nothing: either
    the file system is left as it was, or the output file holds a dict with
    all ten fields of the combined dataset, whose [day2_end_index] is the
    number of points minus one and whose points all carry [day],
    [original_distance] and [distance]. *)
Theorem combine_routes_writes_all_or_nothing (format_2f : R → string) fs :
  files (combine_routes format_2f fs) = fs
  ∨ ∃ m cps,
      files (combine_routes format_2f fs) = <[output_file := Parsed (JObj m)]> fs
      ∧ Forall (λ key, is_Some (m !! key)) combined_fields
      ∧ m !! "points" = Some (JArr cps)
      ∧ m !! "day2_end_index" = Some (JNum (INR (length cps) - 1))
      ∧ Forall has_stitch_fields cps.
Proof.
  destruct (combine_routes_cases format_2f fs)
    as [-> | (m1 & m2 & o1 & o2 & p1 & p2 & l & H1 & H2 & H3 & H4 & H5 & H6 & H7)];
    [by left|].
  right. rewrite (combine_routes_run _ _ _ _ _ _ _ _ _ H1 H2 H3 H4 H5 H6 H7).
  cbn [files]. unfold combined_data. eexists _, (combined_points l).
  split; [reflexivity|].
  split; [unfold combined_fields; repeat constructor; by simplify_map_eq|].
  split; [by simplify_map_eq|]. split; [by simplify_map_eq|].
  by eapply stitch_fields.
Qed.

(** X11: running the script a second time changes nothing more: the second
    run prints the same lines, ends the same way and leaves the file system
    of the first run as it is. *)
Theorem combine_routes_rerun (format_2f : R → string) fs :
  combine_routes format_2f (files (combine_routes format_2f fs))
  = combine_routes format_2f fs.
Proof.
  destruct (combine_routes_cases format_2f fs)
    as [-> | (m1 & m2 & o1 & o2 & p1 & p2 & l & H1 & H2 & H3 & H4 & H5 & H6 & H7)];
    [done|].
  rewrite (combine_routes_run _ _ _ _ _ _ _ _ _ H1 H2 H3 H4 H5 H6 H7).
  cbn [files].
  rewrite (combine_routes_run format_2f _ m1 m2 o1 o2 p1 p2 l); try done.
  - by rewrite insert_insert_eq.
  - by rewrite load_after_write.
  - by rewrite load_after_write.
Qed.

(** X12: when both files hold non-empty dicts and one of them has no
    [points] entry, the run ends with [KeyError]; nothing is printed and
    nothing is written. *)
Theorem combine_routes_missing_points_key (format_2f : R → string) fs m1 m2 :
  fs !! "data/route-day1.json" = Some (Parsed (JObj m1)) →
  fs !! "data/route-day2.json" = Some (Parsed (JObj m2)) →
  m1 ≠ ∅ → m2 ≠ ∅ →
  m1 !! "points" = None ∨ m2 !! "points" = None →
  combine_routes format_2f fs
  = {| stdout := []; files := fs; raised := Some KeyError |}.
Proof.
  intros Hf1 Hf2 Hm1 Hm2 Hmiss.
  unfold combine_routes.
  rewrite (load_parsed _ _ _ Hf1), (load_parsed _ _ _ Hf2).
  cbn [truthy]. rewrite !bool_decide_eq_false_2 by done.
  cbn [negb orb subscript].
  destruct (m1 !! "points") as [v1|]; [|done].
  destruct Hmiss as [? | ->]; done.
Qed.

Lemma stitch_of_points m1 m2 ps1 ps2 t :
  Forall (λ p, route_point_ok p = true) ps1 →
  Forall (λ p, route_point_ok p = true) ps2 →
  py_add (dict_get m1 "total_distance" (JNum 0))
         (dict_get m2 "total_distance" (JNum 0)) = Ok t →
  stitch m1 m2 (JArr ps1) (JArr ps2) =
    Ok {| day1_distance := dict_get m1 "total_distance" (JNum 0);
          day2_distance := dict_get m2 "total_distance" (JNum 0);
          total_distance := t;
          day1_count := length ps1;
          day2_count := length ps2;
          combined_points := stitched_points ps1 ps2 |}.
Proof.
  intros Hok1 Hok2 Hsum. unfold stitch. rewrite Hsum.
  cbn [mbind res_bind py_iter].
  rewrite day1_loop_returns by done. cbn [mbind res_bind].
  fold (day1_offset ps1).
  destruct (day1_offset_number ps1 Hok1) as [r Hr]. rewrite Hr.
  rewrite day2_loop_returns by done. cbn [mbind res_bind].
  unfold stitched_points. by rewrite Hr.
Qed.

Lemma truthy_nonempty_list (l : list json) : l ≠ [] → truthy (JArr l) = true.
Proof. intros Hne. cbn [truthy]. by rewrite bool_decide_eq_false_2. Qed.

(** X13: an exception does not mean that nothing was written.  When the two
    stored totals are strings, [+] concatenates them, the combined dataset is
    written with the concatenation as its [total_distance], and the run then
    ends with [ValueError] at the first formatted print, after the line that
    announces the saved file. *)
Theorem combine_routes_raises_after_writing
    (format_2f : R → string) fs m1 m2 ps1 ps2 s1 s2 :
  fs !! "data/route-day1.json" = Some (Parsed (JObj m1)) →
  fs !! "data/route-day2.json" = Some (Parsed (JObj m2)) →
  m1 !! "points" = Some (JArr ps1) → m2 !! "points" = Some (JArr ps2) →
  ps1 ≠ [] → ps2 ≠ [] →
  Forall (λ p, route_point_ok p = true) ps1 →
  Forall (λ p, route_point_ok p = true) ps2 →
  m1 !! "total_distance" = Some (JStr s1) →
  m2 !! "total_distance" = Some (JStr s2) →
  raised (combine_routes format_2f fs) = Some ValueError
  ∧ stdout (combine_routes format_2f fs)
    = ["Combined route saved to data/route-combined.json"%string]
  ∧ ∃ data,
      files (combine_routes format_2f fs) = <[output_file := Parsed data]> fs
      ∧ subscript data "total_distance" = Ok (JStr (s1 +:+ s2)).
Proof.
  intros Hf1 Hf2 Hp1 Hp2 Hne1 Hne2 Hok1 Hok2 Ht1 Ht2.
  assert (Hsum : py_add (dict_get m1 "total_distance" (JNum 0))
                   (dict_get m2 "total_distance" (JNum 0))
                 = Ok (JStr (s1 +:+ s2)))
    by (unfold dict_get; by rewrite Ht1, Ht2).
  rewrite (combine_routes_run format_2f fs m1 m2 [] [] (JArr ps1) (JArr ps2) _
             (load_parsed _ _ _ Hf1) (load_parsed _ _ _ Hf2) Hp1 Hp2
             (truthy_nonempty_list _ Hne1) (truthy_nonempty_list _ Hne2)
             (stitch_of_points _ _ _ _ _ Hok1 Hok2 Hsum)).
  cbn [raised stdout files]. split; [done|]. split; [done|].
  eexists. split; [reflexivity|]. apply combined_data_fields.
Qed.

Lemma stitched_points_lookup ps1 ps2 i p :
  (ps1 ++ ps2) !! i = Some p →
  ∃ day o, stitched_points ps1 ps2 !! i = Some (stitched_point day p o).
Proof.
  intros [Hp | [Hge Hp]]%lookup_app_Some.
  - eexists _, _. by apply stitched_points_day1.
  - eexists _, _.
    replace i with (length ps1 + (i - length ps1))%nat by lia.
    by apply stitched_points_day2.
Qed.

Lemma unstitch_stitched day (m : gmap string json) o v :
  m !! "distance" = Some v → m !! "day" = None →
  m !! "original_distance" = None →
  unstitch (<["distance" := o]>
              (<["original_distance" := dict_get m "distance" (JNum 0)]>
              (<["day" := JNum day]> m))) = m.
Proof.
  intros Hd Hday Horig. unfold unstitch, dict_get. rewrite Hd.
  simplify_map_eq. apply map_eq. intros key.
  destruct (decide (key = "distance")) as [->|]; [by simplify_map_eq|].
  destruct (decide (key = "original_distance")) as [->|]; [by simplify_map_eq|].
  destruct (decide (key = "day")) as [->|]; by simplify_map_eq.
Qed.

(** X14: stitching keeps the input points recoverable.  The combined route
    has one point per input point, day 1 first; each combined point agrees
    with its input point on every key other than [day], [original_distance]
    and [distance], and an input point that has a [distance] and neither of
    the two added keys is recovered from it by [unstitch]. *)
Theorem stitched_points_round_trip (format_2f : R → string) fs m1 m2 ps1 ps2 :
  day_files fs m1 m2 ps1 ps2 →
  ∃ data cps,
    files (combine_routes format_2f fs) !! output_file = Some (Parsed data)
    ∧ subscript data "points" = Ok (JArr cps)
    ∧ length cps = length (ps1 ++ ps2)
    ∧ ∀ i p, (ps1 ++ ps2) !! i = Some p →
        ∃ m cm, p = JObj m ∧ cps !! i = Some (JObj cm)
          ∧ (∀ key, key ≠ "day"%string → key ≠ "original_distance"%string →
               key ≠ "distance"%string → cm !! key = m !! key)
          ∧ (is_Some (m !! "distance") → m !! "day" = None →
               m !! "original_distance" = None → unstitch cm = m).
Proof.
  intros Hfiles. rewrite (combine_routes_returns _ _ _ _ _ _ Hfiles).
  destruct Hfiles as (_ & _ & (_ & _ & Hok1) & (_ & _ & Hok2) & _ & _).
  set (l := stitched_locals m1 m2 ps1 ps2).
  exists (combined_data m1 m2 l), (stitched_points ps1 ps2). cbn [files].
  split; [by rewrite lookup_insert_eq|].
  split; [apply combined_data_fields|].
  split; [by rewrite stitched_points_length, length_app|].
  intros i p Hp.
  assert (Hok : route_point_ok p = true).
  { assert (Hall : Forall (λ p, route_point_ok p = true) (ps1 ++ ps2))
      by (by apply Forall_app).
    rewrite Forall_forall in Hall. apply Hall. by eapply list_elem_of_lookup_2. }
  destruct (stitched_points_lookup _ _ _ _ Hp) as (day & o & Hcp).
  destruct p as [| | | | |m]; try done.
  eexists m, _. split; [done|]. split; [exact Hcp|]. split.
  - intros key H1 H2 H3. by simplify_map_eq.
  - intros [v Hv] Hday Horig. by eapply unstitch_stitched.
Qed.

(** ** From the converter to the stitcher: the two scripts in sequence *)


















(** ** More on the path projector *)

Lemma scaled_order min_lat max_lat min_lon max_lon p q :
  min_lat < max_lat → min_lon < max_lon →
  (lon p <= lon q →
     (scaled min_lat max_lat min_lon max_lon p).1
     <= (scaled min_lat max_lat min_lon max_lon q).1)
  ∧ (lat p <= lat q →
       (scaled min_lat max_lat min_lon max_lon q).2
       <= (scaled min_lat max_lat min_lon max_lon p).2).
Proof.
  intros Hlat Hlon. unfold scaled, Rdiv. cbn [fst snd].
  pose proof (Rinv_0_lt_compat (max_lon - min_lon)) as Hx.
  pose proof (Rinv_0_lt_compat (max_lat - min_lat)) as Hy.
  split; intros Hle; nra.
Qed.

(** X18: the projection never reverses the orientation of the track.  When
    latitudes and longitudes are not constant, of two points of the list the
    one further east is not drawn further left, and the one further north is
    not drawn further down (its y is not larger). *)
Theorem path_projection_keeps_orientation
    (format_2f : R → string) (points : list coordinate) :
  ¬ constant_on lat points → ¬ constant_on lon points →
  ∃ min_lat max_lat min_lon max_lon p0 rest,
    points = p0 :: rest
    ∧ create_svg_path_from_coordinates format_2f points
      = Ok (String.concat " "
              (move_to format_2f (scaled min_lat max_lat min_lon max_lon p0)
               :: (line_to format_2f
                     <$> (scaled min_lat max_lat min_lon max_lon <$> rest))))
    ∧ ∀ p q, p ∈ points → q ∈ points →
        (lon p <= lon q →
           (scaled min_lat max_lat min_lon max_lon p).1
           <= (scaled min_lat max_lat min_lon max_lon q).1)
        ∧ (lat p <= lat q →
             (scaled min_lat max_lat min_lon max_lon q).2
             <= (scaled min_lat max_lat min_lon max_lon p).2).
Proof.
  intros Hnlat Hnlon. destruct points as [|p0 rest].
  { destruct Hnlat. by intros p q Hp%elem_of_nil. }
  destruct (py_min_max_spec lat (p0 :: rest)) as
    (min_lat & max_lat & Hminlat & Hmaxlat & Hlatb & _ & _); [done|].
  destruct (py_min_max_spec lon (p0 :: rest)) as
    (min_lon & max_lon & Hminlon & Hmaxlon & Hlonb & _ & _); [done|].
  assert (min_lat < max_lat) as Hlats.
  { destruct (Rlt_le_dec min_lat max_lat) as [|Hge]; [done|].
    destruct Hnlat. intros p q Hp Hq.
    pose proof (Hlatb p Hp). pose proof (Hlatb q Hq). lra. }
  assert (min_lon < max_lon) as Hlons.
  { destruct (Rlt_le_dec min_lon max_lon) as [|Hge]; [done|].
    destruct Hnlon. intros p q Hp Hq.
    pose proof (Hlonb p Hp). pose proof (Hlonb q Hq). lra. }
  exists min_lat, max_lat, min_lon, max_lon, p0, rest.
  split; [done|]. split.
  - unfold create_svg_path_from_coordinates.
    rewrite Hminlat, Hmaxlat, Hminlon, Hmaxlon. cbn [mbind res_bind path_loop].
    rewrite project_returns by lra. cbn [mbind res_bind].
    rewrite path_loop_lines by lra. reflexivity.
  - intros p q _ _. by apply scaled_order.
Qed.

(** ** The time format *)

Lemma two_digits_chars n :
  (n < 100)%nat →
  two_digits n
  = String (digit_char (n / 10)) (String (digit_char (n mod 10)) EmptyString).
Proof.
  intros Hn. do 100 (destruct n as [|n]; [reflexivity|]). lia.
Qed.

Lemma digit_char_inj a b :
  (a < 10)%nat → (b < 10)%nat → digit_char a = digit_char b → a = b.
Proof.
  intros Ha Hb Heq. unfold digit_char in Heq.
  apply (f_equal Ascii.nat_of_ascii) in Heq.
  rewrite !Ascii.nat_ascii_embedding in Heq by lia. lia.
Qed.

Lemma two_digits_inj n m :
  (n < 100)%nat → (m < 100)%nat → two_digits n = two_digits m → n = m.
Proof.
  intros Hn Hm. rewrite !two_digits_chars by done.
  pose proof (Nat.div_mod_eq n 10) as Hdn. pose proof (Nat.div_mod_eq m 10) as Hdm.
  assert (n / 10 < 10)%nat by (apply Nat.Div0.div_lt_upper_bound; lia).
  assert (m / 10 < 10)%nat by (apply Nat.Div0.div_lt_upper_bound; lia).
  assert (n mod 10 < 10)%nat by (apply Nat.mod_upper_bound; lia).
  assert (m mod 10 < 10)%nat by (apply Nat.mod_upper_bound; lia).
  set (a := (n / 10)%nat) in *. set (b := (n mod 10)%nat) in *.
  set (c := (m / 10)%nat) in *. set (d := (m mod 10)%nat) in *.
  clearbody a b c d. intros [= Hhi Hlo].
  apply digit_char_inj in Hhi; [|done..].
  apply digit_char_inj in Hlo; [|done..]. lia.
Qed.

Lemma clock_text_inj h m h' m' :
  (h < 100)%nat → (m < 100)%nat → (h' < 100)%nat → (m' < 100)%nat →
  two_digits h +:+ ":" +:+ two_digits m = two_digits h' +:+ ":" +:+ two_digits m' →
  h = h' ∧ m = m'.
Proof.
  intros Hh Hm Hh' Hm'. rewrite !two_digits_chars by done.
  pose proof (Nat.div_mod_eq h 10). pose proof (Nat.div_mod_eq m 10).
  pose proof (Nat.div_mod_eq h' 10). pose proof (Nat.div_mod_eq m' 10).
  assert (h / 10 < 10)%nat by (apply Nat.Div0.div_lt_upper_bound; lia).
  assert (m / 10 < 10)%nat by (apply Nat.Div0.div_lt_upper_bound; lia).
  assert (h' / 10 < 10)%nat by (apply Nat.Div0.div_lt_upper_bound; lia).
  assert (m' / 10 < 10)%nat by (apply Nat.Div0.div_lt_upper_bound; lia).
  assert (h mod 10 < 10)%nat by (apply Nat.mod_upper_bound; lia).
  assert (m mod 10 < 10)%nat by (apply Nat.mod_upper_bound; lia).
  assert (h' mod 10 < 10)%nat by (apply Nat.mod_upper_bound; lia).
  assert (m' mod 10 < 10)%nat by (apply Nat.mod_upper_bound; lia).
  set (a := (h / 10)%nat) in *. set (b := (h mod 10)%nat) in *.
  set (c := (m / 10)%nat) in *. set (d := (m mod 10)%nat) in *.
  set (a' := (h' / 10)%nat) in *. set (b' := (h' mod 10)%nat) in *.
  set (c' := (m' / 10)%nat) in *. set (d' := (m' mod 10)%nat) in *.
  clearbody a b c d a' b' c' d'. cbn [String.append].
  intros [= Ea Eb Ec Ed].
  apply digit_char_inj in Ea; [|done..]. apply digit_char_inj in Eb; [|done..].
  apply digit_char_inj in Ec; [|done..]. apply digit_char_inj in Ed; [|done..].
  lia.
Qed.

(** X19: for a clock time (hour below 24, minute below 60) [parse_time]
    returns a string of five characters with a colon in the middle, never
    [None], and the string determines the hour and the minute. *)
Theorem parse_time_format (t t' : datetime) :
  (hour t < 24)%nat → (minute t < 60)%nat →
  (hour t' < 24)%nat → (minute t' < 60)%nat →
  (∃ s, parse_time (Some t) = JStr s
        ∧ String.length s = 5%nat
        ∧ String.get 2 s = Some (Ascii.ascii_of_nat 58))
  ∧ (parse_time (Some t) = parse_time (Some t') →
       hour t = hour t' ∧ minute t = minute t').
Proof.
  intros Hh Hm Hh' Hm'. unfold parse_time. split.
  - rewrite (two_digits_chars (hour t)), (two_digits_chars (minute t)) by lia.
    eexists. split; [reflexivity|]. split; reflexivity.
  - intros [= Heq]. apply clock_text_inj in Heq; [done | lia..].
Qed.

(** ** Sample runs *)

Lemma sample_point_ok d : route_point_ok (sample_point d) = true.
Proof.
  unfold route_point_ok, sample_point, numeric_or_absent. by simplify_map_eq.
Qed.

Lemma sample_point_distance d : original_distance (sample_point d) = JNum d.
Proof. unfold original_distance, sample_point, dict_get. by simplify_map_eq. Qed.

Lemma sample_dataset_total total ds :
  dict_get (sample_dataset total ds) "total_distance" (JNum 0) = JNum total.
Proof. unfold sample_dataset, dict_get. by simplify_map_eq. Qed.

Lemma sample_day_dataset total ds :
  day_dataset (sample_dataset total ds) (sample_point <$> ds).
Proof.
  unfold day_dataset, sample_dataset, numeric_or_absent.
  split; [by simplify_map_eq|]. split; [by simplify_map_eq|].
  apply Forall_fmap, Forall_true. intros d. apply sample_point_ok.
Qed.

Lemma sample_day_files total1 ds1 total2 ds2 :
  ds1 ≠ [] → ds2 ≠ [] →
  day_files (sample_files (sample_dataset total1 ds1) (sample_dataset total2 ds2))
    (sample_dataset total1 ds1) (sample_dataset total2 ds2)
    (sample_point <$> ds1) (sample_point <$> ds2).
Proof.
  intros H1 H2. unfold day_files, sample_files.
  split; [by simplify_map_eq|]. split; [by simplify_map_eq|].
  split; [apply sample_day_dataset|]. split; [apply sample_day_dataset|].
  split; by intros ?%fmap_nil_inv.
Qed.

(** In the scenario of the specification the third and last day-1 point,
    whose own distance is 5, is written with distance 2. *)
Lemma day1_points_stamped_with_previous_offset_witness :
  day_files (sample_files scenario_day1 scenario_day2) scenario_day1 scenario_day2
    (sample_point <$> [0; 2; 5]) (sample_point <$> [0; 3])
  ∧ ∃ data cps cp,
      files (combine_routes sample_format (sample_files scenario_day1 scenario_day2))
        !! output_file = Some (Parsed data)
      ∧ subscript data "points" = Ok (JArr cps)
      ∧ cps !! 2%nat = Some cp
      ∧ subscript cp "original_distance" = Ok (JNum 5)
      ∧ subscript cp "distance" = Ok (JNum 2).
Proof.
  assert (Hfiles : day_files (sample_files scenario_day1 scenario_day2)
                     scenario_day1 scenario_day2
                     (sample_point <$> [0; 2; 5]) (sample_point <$> [0; 3]))
    by (apply sample_day_files; discriminate).
  split; [exact Hfiles|].
  destruct (day1_points_stamped_with_previous_offset sample_format _ _ _ _ _ Hfiles)
    as (data & cps & _ & Hfile & Hpoints & Hall & _).
  destruct (Hall 2%nat (sample_point 5) eq_refl) as (cp & Hcp & _ & Horig & Hdist).
  exists data, cps, cp. repeat split; assumption.
Defined.

Lemma scenario_day1_total_is_last :
  total_is_last_distance scenario_day1 (sample_point <$> [0; 2; 5]).
Proof.
  intros p [= <-]. unfold scenario_day1.
  by rewrite sample_dataset_total, sample_point_distance.
Qed.

(** In the scenario of the specification the second and last day-2 point,
    whose own distance is 3, is written with distance 5 + 3. *)
Lemma day2_points_rebased_on_day1_total_witness :
  day_files (sample_files scenario_day1 scenario_day2) scenario_day1 scenario_day2
    (sample_point <$> [0; 2; 5]) (sample_point <$> [0; 3])
  ∧ total_is_last_distance scenario_day1 (sample_point <$> [0; 2; 5])
  ∧ ∃ data cps cp,
      files (combine_routes sample_format (sample_files scenario_day1 scenario_day2))
        !! output_file = Some (Parsed data)
      ∧ subscript data "points" = Ok (JArr cps)
      ∧ cps !! 4%nat = Some cp
      ∧ subscript cp "day" = Ok (JNum 2)
      ∧ subscript cp "original_distance" = Ok (JNum 3)
      ∧ subscript cp "distance" = Ok (JNum (5 + 3)).
Proof.
  assert (Hfiles : day_files (sample_files scenario_day1 scenario_day2)
                     scenario_day1 scenario_day2
                     (sample_point <$> [0; 2; 5]) (sample_point <$> [0; 3]))
    by (apply sample_day_files; discriminate).
  split; [exact Hfiles|]. split; [exact scenario_day1_total_is_last|].
  destruct (day2_points_rebased_on_day1_total sample_format _ _ _ _ _ Hfiles
              scenario_day1_total_is_last)
    as (data & cps & total1 & _ & Hfile & Hpoints & _ & Htotal & Hall).
  destruct (Hall 1%nat (sample_point 3) eq_refl)
    as (cp & own & Hcp & Hown & Hday & Horig & Hdist).
  pose proof (eq_trans (eq_sym (sample_dataset_total 5 [0; 2; 5])) Htotal) as H5.
  pose proof (eq_trans (eq_sym (sample_point_distance 3)) Hown) as H3.
  injection H5 as <-. injection H3 as <-.
  exists data, cps, cp. repeat split; assumption.
Defined.


(** The header of the scenario of the specification: total 5 + 3, day 1 at
    indices 0 to 2, day 2 at indices 3 to 4. *)
Lemma combined_header_fields_witness :
  day_files (sample_files scenario_day1 scenario_day2) scenario_day1 scenario_day2
    (sample_point <$> [0; 2; 5]) (sample_point <$> [0; 3])
  ∧ ∃ data,
      files (combine_routes sample_format (sample_files scenario_day1 scenario_day2))
        !! output_file = Some (Parsed data)
      ∧ subscript data "total_distance" = Ok (JNum (5 + 3))
      ∧ subscript data "day1_start_index" = Ok (JNum 0)
      ∧ subscript data "day1_end_index" = Ok (JNum (INR 3 - 1))
      ∧ subscript data "day2_start_index" = Ok (JNum (INR 3))
      ∧ subscript data "day2_end_index" = Ok (JNum (INR 5 - 1)).
Proof.
  assert (Hfiles : day_files (sample_files scenario_day1 scenario_day2)
                     scenario_day1 scenario_day2
                     (sample_point <$> [0; 2; 5]) (sample_point <$> [0; 3]))
    by (apply sample_day_files; discriminate).
  split; [exact Hfiles|].
  destruct (combined_header_fields sample_format _ _ _ _ _ Hfiles)
    as (data & cps & total & _ & Hfile & _ & Hlen & Htotal & Hsum & _ & _ & _ & _
        & Hs1 & He1 & Hs2 & He2 & _).
  change (Ok (JNum (5 + 3)) = Ok (JNum total)) in Hsum. injection Hsum as <-.
  rewrite Hlen in He2.
  exists data. repeat split; assumption.
Defined.

(** With no input files the run reports that the data could not be loaded
    and writes nothing; with a first dataset that has no points it reports
    that no points were found and writes nothing. *)
Lemma combine_routes_fails_fast_witness :
  (unavailable ∅ "data/route-day1.json" = true
   ∧ files (combine_routes sample_format ∅) = ∅
   ∧ raised (combine_routes sample_format ∅) = None
   ∧ last (stdout (combine_routes sample_format ∅))
     = Some "Could not load route data!"%string)
  ∧ (has_no_points (sample_files empty_day scenario_day2) "data/route-day1.json"
     ∧ files (combine_routes sample_format (sample_files empty_day scenario_day2))
       = sample_files empty_day scenario_day2
     ∧ raised (combine_routes sample_format (sample_files empty_day scenario_day2))
       = None
     ∧ stdout (combine_routes sample_format (sample_files empty_day scenario_day2))
       = ["No points found in route data!"%string]).
Proof.
  split.
  - split; [reflexivity|].
    apply (proj1 (combine_routes_fails_fast sample_format ∅)).
    left. reflexivity.
  - split; [exists empty_day; split; reflexivity|].
    apply (proj1 (proj2 (combine_routes_fails_fast sample_format
                           (sample_files empty_day scenario_day2)))
             empty_day scenario_day2 (JArr []) (JArr (sample_point <$> [0; 3])));
      [reflexivity | reflexivity | reflexivity | reflexivity | by left].
Defined.

(** Two opposite corners are projected to a path. *)
Lemma path_projection_witness :
  ¬ constant_on lat sample_corners
  ∧ ¬ constant_on lon sample_corners
  ∧ ∃ path, create_svg_path_from_coordinates sample_format sample_corners = Ok path.
Proof.
  assert (Hlat : ¬ constant_on lat sample_corners).
  { intros H.
    specialize (H {| lat := 0; lon := 0 |} {| lat := 1; lon := 1 |}).
    cbn in H. assert (0 = 1) by (apply H; set_solver). lra. }
  assert (Hlon : ¬ constant_on lon sample_corners).
  { intros H.
    specialize (H {| lat := 0; lon := 0 |} {| lat := 1; lon := 1 |}).
    cbn in H. assert (0 = 1) by (apply H; set_solver). lra. }
  split; [exact Hlat|]. split; [exact Hlon|].
  destruct (proj1 (path_projection sample_format sample_corners) Hlat Hlon)
    as (min_lat & max_lat & min_lon & max_lon & p0 & rest & _ & _ & _ & _ & _ & _
        & Hpath & _).
  eexists. exact Hpath.
Defined.

(** With no files at all, the first input file is still absent after the
    run. *)
Lemma combine_routes_touches_only_output_witness :
  "data/route-day1.json"%string ≠ output_file
  ∧ files (combine_routes sample_format ∅) !! "data/route-day1.json" = None.
Proof.
  assert (H : "data/route-day1.json"%string ≠ output_file) by discriminate.
  split; [exact H|].
  exact (combine_routes_touches_only_output sample_format ∅ _ H).
Defined.

Lemma pointless_day_facts :
  pointless_day ≠ ∅ ∧ pointless_day !! "points" = None.
Proof.
  unfold pointless_day. split; [|done].
  intros H%(f_equal (lookup "total_distance")). by simplify_map_eq.
Qed.

(** Two datasets that only hold a total end the run with [KeyError]. *)
Lemma combine_routes_missing_points_key_witness :
  pointless_day ≠ ∅
  ∧ pointless_day !! "points" = None
  ∧ combine_routes sample_format (sample_files pointless_day pointless_day)
    = {| stdout := [];
         files := sample_files pointless_day pointless_day;
         raised := Some KeyError |}.
Proof.
  destruct pointless_day_facts as [Hne Hnone].
  split; [exact Hne|]. split; [exact Hnone|].
  apply (combine_routes_missing_points_key sample_format
           (sample_files pointless_day pointless_day) pointless_day pointless_day);
    [reflexivity | reflexivity | exact Hne | exact Hne | by left].
Defined.

(** Totals stored as the strings "5" and "3" are written as "53", and the
    run then raises. *)
Lemma combine_routes_raises_after_writing_witness :
  raised (combine_routes sample_format (sample_files text_total_day1 text_total_day2))
    = Some ValueError
  ∧ ∃ data,
      files (combine_routes sample_format
               (sample_files text_total_day1 text_total_day2))
        = <[output_file := Parsed data]> (sample_files text_total_day1 text_total_day2)
      ∧ subscript data "total_distance" = Ok (JStr "53").
Proof.
  assert (Hok : Forall (λ p, route_point_ok p = true) [sample_point 0])
    by (repeat constructor; apply sample_point_ok).
  destruct (combine_routes_raises_after_writing sample_format
              (sample_files text_total_day1 text_total_day2)
              text_total_day1 text_total_day2 [sample_point 0] [sample_point 0]
              "5" "3" eq_refl eq_refl eq_refl eq_refl
              ltac:(discriminate) ltac:(discriminate) Hok Hok eq_refl eq_refl)
    as (Hraised & _ & Hdata).
  split; [exact Hraised | exact Hdata].
Defined.

(** In the scenario of the specification the last day-1 point, stitched with
    distance 2, is recovered with its own distance 5. *)
Lemma stitched_points_round_trip_witness :
  day_files (sample_files scenario_day1 scenario_day2) scenario_day1 scenario_day2
    (sample_point <$> [0; 2; 5]) (sample_point <$> [0; 3])
  ∧ ∃ data cps cm,
      files (combine_routes sample_format (sample_files scenario_day1 scenario_day2))
        !! output_file = Some (Parsed data)
      ∧ subscript data "points" = Ok (JArr cps)
      ∧ cps !! 2%nat = Some (JObj cm)
      ∧ JObj (unstitch cm) = sample_point 5.
Proof.
  assert (Hfiles : day_files (sample_files scenario_day1 scenario_day2)
                     scenario_day1 scenario_day2
                     (sample_point <$> [0; 2; 5]) (sample_point <$> [0; 3]))
    by (apply sample_day_files; discriminate).
  split; [exact Hfiles|].
  destruct (stitched_points_round_trip sample_format _ _ _ _ _ Hfiles)
    as (data & cps & Hfile & Hpoints & _ & Hall).
  destruct (Hall 2%nat (sample_point 5) eq_refl)
    as (m & cm & Hm & Hcp & _ & Hback).
  injection Hm as <-.
  exists data, cps, cm. repeat split; try assumption.
  unfold sample_point. f_equal.
  apply Hback; [exists (JNum 5); reflexivity | reflexivity | reflexivity].
Defined.



Lemma sample_corners_not_constant :
  ¬ constant_on lat sample_corners ∧ ¬ constant_on lon sample_corners.
Proof.
  split; intros H;
    specialize (H {| lat := 0; lon := 0 |} {| lat := 1; lon := 1 |});
    cbn in H; assert (0 = 1) by (apply H; set_solver); lra.
Defined.

(** Of the two corners, the north-eastern one is drawn neither to the left
    of nor below the south-western one. *)
Lemma path_projection_keeps_orientation_witness :
  ¬ constant_on lat sample_corners
  ∧ ¬ constant_on lon sample_corners
  ∧ ∃ min_lat max_lat min_lon max_lon,
      create_svg_path_from_coordinates sample_format sample_corners
      = Ok (String.concat " "
              [move_to sample_format
                 (scaled min_lat max_lat min_lon max_lon {| lat := 0; lon := 0 |});
               line_to sample_format
                 (scaled min_lat max_lat min_lon max_lon {| lat := 1; lon := 1 |})])
      ∧ (scaled min_lat max_lat min_lon max_lon {| lat := 0; lon := 0 |}).1
        <= (scaled min_lat max_lat min_lon max_lon {| lat := 1; lon := 1 |}).1
      ∧ (scaled min_lat max_lat min_lon max_lon {| lat := 1; lon := 1 |}).2
        <= (scaled min_lat max_lat min_lon max_lon {| lat := 0; lon := 0 |}).2.
Proof.
  destruct sample_corners_not_constant as [Hlat Hlon].
  split; [exact Hlat|]. split; [exact Hlon|].
  destruct (path_projection_keeps_orientation sample_format sample_corners Hlat Hlon)
    as (min_lat & max_lat & min_lon & max_lon & p0 & rest & Hpoints & Hpath & Horder).
  injection Hpoints as <- <-.
  destruct (Horder {| lat := 0; lon := 0 |} {| lat := 1; lon := 1 |})
    as [Hx Hy]; [by left | by right; left |].
  exists min_lat, max_lat, min_lon, max_lon.
  split; [exact Hpath|].
  split; [apply Hx | apply Hy]; cbn; lra.
Defined.

(** Five past seven is written with both leading zeros. *)
Lemma parse_time_format_witness :
  (hour sample_time < 24)%nat ∧ (minute sample_time < 60)%nat
  ∧ ∃ s, parse_time (Some sample_time) = JStr s ∧ String.length s = 5%nat.
Proof.
  assert (Hh : (hour sample_time < 24)%nat) by (cbn; lia).
  assert (Hm : (minute sample_time < 60)%nat) by (cbn; lia).
  split; [exact Hh|]. split; [exact Hm|].
  destruct (proj1 (parse_time_format sample_time sample_time Hh Hm Hh Hm))
    as (s & Hs & Hlen & _).
  exists s. split; assumption.
Defined.
